(** * SentinelWorks dashboard client: [static/js/charts.js]

    A shallow embedding of the polling client (rolling history buffers,
    KPI formatting, advisory message, the poll tick and its writes to the
    page) together with the part of the JavaScript value semantics its
    expressions rely on: IEEE-754 doubles, [ToNumber], [ToString],
    [ToBoolean], property reads on parsed JSON and [Number.prototype.toFixed]. *)

From Stdlib Require Import ZArith Lia Bool List Ascii String SpecFloat DecimalString.
From stdpp Require Import base gmap strings list.

Open Scope string_scope.

(** ** Numbers: binary64 values of [SpecFloat] *)

Module Num.

Definition prec : Z := 53.
Definition emax : Z := 1024.

Abbreviation number := spec_float.

Definition nan : number := S754_nan.

(** The double nearest to [m * 10^e10] (ties to even), signed by [neg].
    This is the rounding the language applies to numeric literals and to
    numeric strings. *)
Definition of_decimal (neg : bool) (m : N) (e10 : Z) : number :=
  match m with
  | N0 => S754_zero neg
  | Npos p =>
      if (0 <=? e10)%Z
      then binary_normalize prec emax (cond_Zopp neg (Zpos p * 10 ^ e10)) 0 neg
      else
        let '(q, e', l) :=
          SFdiv_core_binary prec emax (Zpos p) 0 (10 ^ (- e10)) 0 in
        binary_round_aux prec emax neg q e' l
  end.

Definition of_Z (z : Z) : number := binary_normalize prec emax z 0 false.

Definition is_nan (x : number) : bool :=
  match x with S754_nan => true | _ => false end.

Definition is_zero (x : number) : bool :=
  match x with S754_zero _ => true | _ => false end.

(** [Number::lessThan]: [None] is the specification's [undefined],
    returned when an operand is NaN. *)
Definition lessThan (x y : number) : option bool :=
  match SFcompare x y with
  | Some Lt => Some true
  | Some _ => Some false
  | None => None
  end.

(** [x > y] evaluates [y < x]; an undefined comparison is [false]. *)
Definition gt (x y : number) : bool :=
  match lessThan y x with Some true => true | _ => false end.

(** [x >= y] evaluates [x < y] and negates; undefined is [false]. *)
Definition ge (x y : number) : bool :=
  match lessThan x y with Some false => true | _ => false end.

(** [x < y]. *)
Definition lt (x y : number) : bool :=
  match lessThan x y with Some true => true | _ => false end.

(** *** Decimal digits *)

Definition dec (n : N) : string := NilZero.string_of_uint (N.to_uint n).

Definition ndigits (n : N) : Z := Z.of_nat (String.length (dec n)).

Fixpoint zeros (n : nat) : string :=
  match n with O => "" | S n' => String "0" (zeros n') end.

Definition take_s (n : nat) (s : string) : string :=
  string_of_list_ascii (take n (list_ascii_of_string s)).

Definition drop_s (n : nat) (s : string) : string :=
  string_of_list_ascii (drop n (list_ascii_of_string s)).

(** The exact value [m * 2^e] of a finite double as a fraction. *)
Definition frac (m : positive) (e : Z) : Z * Z :=
  if (0 <=? e)%Z then (Zpos m * 2 ^ e, 1)%Z else (Zpos m, 2 ^ (- e))%Z.

(** *** [Number::toString] (radix 10)

    For a positive finite [x] the specification asks for integers
    [n], [k], [s] with [10^(k-1) <= s < 10^k], [𝔽(s * 10^(n-k)) = x] and
    [k] least; among several [s] the one closest to [x]. *)

Record cand := { c_n : Z; c_s : Z }.

Definition cand_valid (x : number) (k : Z) (c : cand) : bool :=
  (10 ^ (k - 1) <=? c_s c)%Z && (c_s c <? 10 ^ k)%Z
  && match SFcompare (of_decimal false (Z.to_N (c_s c)) (c_n c - k)) x with
     | Some Eq => true
     | _ => false
     end.

(** Twice the distance of [s * 10^p] from [num/den], over the common
    denominator [den * 10^max(0,-p)]; returned as a fraction. *)
Definition cand_dist (num den : Z) (k : Z) (c : cand) : Z * Z :=
  let p := (c_n c - k)%Z in
  let '(sn, sd) := if (0 <=? p)%Z then (c_s c * 10 ^ p, 1)%Z
                   else (c_s c, 10 ^ (- p))%Z in
  (Z.abs (sn * den - num * sd), sd * den)%Z.

Definition closer (num den k : Z) (c1 c2 : cand) : bool :=
  let '(a, b) := cand_dist num den k c1 in
  let '(c, d) := cand_dist num den k c2 in
  match (a * d ?= c * b)%Z with
  | Lt => true
  | Gt => false
  | Eq => Z.even (c_s c1)
  end.

Definition cands_at (num den k n : Z) : list cand :=
  let p := (n - k)%Z in
  let '(a, b) := if (0 <=? p)%Z then (num, den * 10 ^ p)%Z
                 else (num * 10 ^ (- p), den)%Z in
  let lo := (a / b)%Z in
  [ {| c_n := n; c_s := lo |}; {| c_n := n; c_s := lo + 1 |} ].

Definition best (num den k : Z) (cs : list cand) : option cand :=
  fold_left (fun acc c =>
               match acc with
               | None => Some c
               | Some b => if closer num den k c b then Some c else Some b
               end) cs None.

Definition dec_position (num den : Z) : Z :=
  if (den <=? num)%Z then ndigits (Z.to_N (num / den))
  else (1 - ndigits (Z.to_N (den / num)))%Z.

Definition digits_for (x : number) (num den k : Z) : option cand :=
  let n0 := dec_position num den in
  let ns := [n0 - 1; n0; n0 + 1; n0 + 2]%Z in
  best num den k
       (filter (fun c => Is_true (cand_valid x k c))
               (flat_map (cands_at num den k) ns)).

Fixpoint shortest (x : number) (num den : Z) (k : Z) (fuel : nat)
  : option (Z * cand) :=
  match fuel with
  | O => None
  | S fuel' =>
      match digits_for x num den k with
      | Some c => Some (k, c)
      | None => shortest x num den (k + 1) fuel'
      end
  end.

(** Layout of the digits [s] (there are [k] of them) at position [n]. *)
Definition layout (n k : Z) (s : string) : string :=
  if ((k <=? n) && (n <=? 21))%Z then
    s ++ zeros (Z.to_nat (n - k))
  else if ((0 <? n) && (n <=? 21))%Z then
    take_s (Z.to_nat n) s ++ "." ++ drop_s (Z.to_nat n) s
  else if ((-6 <? n) && (n <=? 0))%Z then
    "0." ++ zeros (Z.to_nat (- n)) ++ s
  else
    let e := (n - 1)%Z in
    let es := (if (e <? 0)%Z then "-" else "+") ++ dec (Z.to_N (Z.abs e)) in
    if (k =? 1)%Z then s ++ "e" ++ es
    else take_s 1 s ++ "." ++ drop_s 1 s ++ "e" ++ es.

Definition toString_pos (m : positive) (e : Z) : string :=
  let '(num, den) := frac m e in
  match shortest (binary_round prec emax false m e) num den 1 17 with
  | Some (k, c) => layout (c_n c) k (dec (Z.to_N (c_s c)))
  | None => layout (dec_position num den) 1 "0"
  end.

Definition toString (x : number) : string :=
  match x with
  | S754_nan => "NaN"
  | S754_zero _ => "0"
  | S754_infinity false => "Infinity"
  | S754_infinity true => "-Infinity"
  | S754_finite s m e => (if s then "-" else "") ++ toString_pos m e
  end.

(** *** [Number.prototype.toFixed]

    [RangeError] unless [0 <= f <= 100]; a non-finite value is printed by
    [toString]; so is a value of magnitude at least [10^21]; otherwise
    the integer [n] with [n / 10^f] closest to the value (the larger one
    on a tie) is printed with [f] digits after the point. *)

Definition fixed_digits (num den : Z) (f : Z) : string :=
  let n := ((2 * num * 10 ^ f + den) / (2 * den))%Z in
  let m := dec (Z.to_N n) in
  if (f =? 0)%Z then m
  else
    let fn := Z.to_nat f in
    let k := String.length m in
    let m' := if (k <=? fn)%nat then zeros (fn + 1 - k) ++ m else m in
    let k' := String.length m' in
    take_s (k' - fn) m' ++ "." ++ drop_s (k' - fn) m'.

Definition toFixed (x : number) (f : Z) : option string :=
  if ((f <? 0) || (100 <? f))%Z then None
  else Some
    match x with
    | S754_finite s m e =>
        let '(num, den) := frac m e in
        if (10 ^ 21 * den <=? num)%Z then toString x
        else (if s then "-" else "") ++ fixed_digits num den f
    | S754_zero _ => fixed_digits 0 1 f
    | _ => toString x
    end.

(** *** [StringToNumber]

    Strings are byte strings holding UTF-8; the white space and line
    terminator code points of the grammar are matched by their
    encodings. *)

Definition bytes_of (s : string) : list N :=
  map N_of_ascii (list_ascii_of_string s).

Definition white_space : list (list N) :=
  [ [9]; [10]; [11]; [12]; [13]; [32]; [194; 160]; [225; 154; 128];
    [226; 128; 128]; [226; 128; 129]; [226; 128; 130]; [226; 128; 131];
    [226; 128; 132]; [226; 128; 133]; [226; 128; 134]; [226; 128; 135];
    [226; 128; 136]; [226; 128; 137]; [226; 128; 138];
    [226; 128; 168]; [226; 128; 169]; [226; 128; 175];
    [226; 129; 159]; [227; 128; 128]; [239; 187; 191] ]%N.

Fixpoint strip_prefix (w l : list N) : option (list N) :=
  match w, l with
  | [], _ => Some l
  | a :: w', b :: l' => if (a =? b)%N then strip_prefix w' l' else None
  | _ :: _, [] => None
  end.

Fixpoint strip_any (ws : list (list N)) (l : list N) : option (list N) :=
  match ws with
  | [] => None
  | w :: ws' =>
      match strip_prefix w l with
      | Some r => Some r
      | None => strip_any ws' l
      end
  end.

Fixpoint trim_start (ws : list (list N)) (fuel : nat) (l : list N) : list N :=
  match fuel with
  | O => l
  | S fuel' =>
      match strip_any ws l with
      | Some r => trim_start ws fuel' r
      | None => l
      end
  end.

Definition trim (l : list N) : list N :=
  let l1 := trim_start white_space (length l) l in
  rev (trim_start (map (@rev N) white_space) (length l1) (rev l1)).

Definition digit_val (radix : N) (c : N) : option N :=
  let v :=
    if ((48 <=? c) && (c <=? 57))%N then Some (c - 48)%N
    else if ((97 <=? c) && (c <=? 102))%N then Some (c - 87)%N
    else if ((65 <=? c) && (c <=? 70))%N then Some (c - 55)%N
    else None in
  match v with
  | Some d => if (d <? radix)%N then Some d else None
  | None => None
  end.

(** Longest prefix of digits in [radix]: its value, its length, the rest. *)
Fixpoint span_digits (radix : N) (acc : N) (len : nat) (l : list N)
  : N * nat * list N :=
  match l with
  | [] => (acc, len, [])
  | c :: l' =>
      match digit_val radix c with
      | Some d => span_digits radix (acc * radix + d)%N (S len) l'
      | None => (acc, len, l)
      end
  end.

Definition parse_radix (radix : N) (l : list N) : number :=
  match span_digits radix 0 0 l with
  | (v, S _, []) => of_Z (Z.of_N v)
  | _ => nan
  end.

(** [ExponentPart_opt] followed by the end of the input. *)
Definition parse_exponent (l : list N) : option Z :=
  match l with
  | [] => Some 0%Z
  | c :: l' =>
      if ((c =? 101) || (c =? 69))%N then
        let '(neg, l'') :=
          match l' with
          | 43%N :: r => (false, r)
          | 45%N :: r => (true, r)
          | _ => (false, l')
          end in
        match span_digits 10 0 0 l'' with
        | (v, S _, []) => Some (cond_Zopp neg (Z.of_N v))
        | _ => None
        end
      else None
  end.

Definition parse_unsigned (neg : bool) (l : list N) : number :=
  if decide (l = bytes_of "Infinity") then S754_infinity neg
  else
    let '(iv, ilen, r) := span_digits 10 0 0 l in
    let '(mv, flen, r') :=
      match r with
      | 46%N :: r1 => span_digits 10 iv 0 r1
      | _ => (iv, O, r)
      end in
    match ilen, flen with
    | O, O => nan
    | _, _ =>
        match parse_exponent r' with
        | Some e => of_decimal neg mv (e - Z.of_nat flen)
        | None => nan
        end
    end.

Definition StringToNumber (str : string) : number :=
  match trim (bytes_of str) with
  | [] => S754_zero false
  | 43%N :: r => parse_unsigned false r
  | 45%N :: r => parse_unsigned true r
  | 48%N :: c :: r =>
      if ((c =? 120) || (c =? 88))%N then parse_radix 16 r
      else if ((c =? 111) || (c =? 79))%N then parse_radix 8 r
      else if ((c =? 98) || (c =? 66))%N then parse_radix 2 r
      else parse_unsigned false (48%N :: c :: r)
  | l => parse_unsigned false l
  end.

End Num.

Import Num.

(** ** Values, completions and coercions

    A response body parsed by [r.json()] is a JSON value; reading a missing
    property yields [undefined]. *)

#[warnings="-register-all"]
Inductive value :=
  | Undefined
  | Null
  | Bool (b : bool)
  | Number (x : number)
  | Str (s : string)
  | Array (elems : list value)
  | Object (props : list (string * value)).

Inductive error :=
  | TypeError
  | RangeError
  | SyntaxError
  | NetworkError.

Inductive completion (A : Type) :=
  | Normal (a : A)
  | Throw (e : error).

Arguments Normal {A} a.
Arguments Throw {A} e.

Definition cbind {A B} (c : completion A) (k : A -> completion B) : completion B :=
  match c with
  | Normal a => k a
  | Throw e => Throw e
  end.

Notation "'let?' x := c 'in' k" := (cbind c (fun x => k))
  (at level 10, x name, c at level 100, k at level 200).

(** Own property [k] of a parsed object. *)
Fixpoint own_property (k : string) (props : list (string * value)) : option value :=
  match props with
  | [] => None
  | (k', v) :: rest => if String.eqb k k' then Some v else own_property k rest
  end.

(** [v.k] for the property names this script reads ([sensors], [risk],
    [distance_m], [system_state], [stress], [active], [seconds_left] and the
    six channel names): none of them is defined on the prototypes of
    objects, arrays, strings, numbers or booleans, so the read finds an own
    property of an object or nothing. Reading from [null] or [undefined]
    throws. *)
Definition get (v : value) (k : string) : completion value :=
  match v with
  | Undefined | Null => Throw TypeError
  | Object props =>
      Normal (match own_property k props with Some x => x | None => Undefined end)
  | _ => Normal Undefined
  end.

Definition ToBoolean (v : value) : bool :=
  match v with
  | Undefined | Null => false
  | Bool b => b
  | Number x => negb (is_zero x || is_nan x)
  | Str s => negb (String.eqb s "")
  | Array _ | Object _ => true
  end.

(** [a || b] with [b] already a value. *)
Definition or_else (a b : value) : value := if ToBoolean a then a else b.

Definition is_nullish (v : value) : bool :=
  match v with Undefined | Null => true | _ => false end.

(** [a ?? b]. *)
Definition coalesce (a b : value) : value := if is_nullish a then b else a.

(** [ToString]. A parsed object inherits [Object.prototype.toString] unless
    the body gave it an own [toString] property, which is never callable:
    the conversion then finds no usable method and throws. An array is
    joined with commas, [null] and [undefined] elements printing as empty. *)
Fixpoint ToString (v : value) : completion string :=
  match v with
  | Undefined => Normal "undefined"
  | Null => Normal "null"
  | Bool true => Normal "true"
  | Bool false => Normal "false"
  | Number x => Normal (Num.toString x)
  | Str s => Normal s
  | Array elems =>
      (fix join (first : bool) (l : list value) : completion string :=
         match l with
         | [] => Normal ""
         | e :: l' =>
             let? s := (if is_nullish e then Normal "" else ToString e) in
             let? r := join false l' in
             Normal ((if first then "" else ",") ++ s ++ r)
         end) true elems
  | Object props =>
      match own_property "toString" props with
      | Some _ => Throw TypeError
      | None => Normal "[object Object]"
      end
  end.

(** [ToNumber]; arrays and objects go through their string form. *)
Definition ToNumber (v : value) : completion number :=
  match v with
  | Undefined => Normal nan
  | Null => Normal (S754_zero false)
  | Bool true => Normal (of_Z 1)
  | Bool false => Normal (S754_zero false)
  | Number x => Normal x
  | Str s => Normal (StringToNumber s)
  | Array _ | Object _ => let? s := ToString v in Normal (StringToNumber s)
  end.

(** [d == null]. *)
Definition loose_eq_null (d : value) : bool := is_nullish d.

(** [Number.isNaN(v)]. *)
Definition Number_isNaN (v : value) : bool :=
  match v with Number x => is_nan x | _ => false end.

(** [v === "literal"]. *)
Definition strict_eq_str (v : value) (lit : string) : bool :=
  match v with Str s => String.eqb s lit | _ => false end.

(** [v > y] and [v >= y] against a numeric literal [y]. *)
Definition value_gt (v : value) (y : number) : completion bool :=
  let? x := ToNumber v in Normal (Num.gt x y).

Definition value_ge (v : value) (y : number) : completion bool :=
  let? x := ToNumber v in Normal (Num.ge x y).

(** ** Config *)

Definition POLL_MS : Z := 1000.
Definition HISTORY_MAX : Z := 30.

(** ** Utils *)

(** [pushLimited(arr, v, max = HISTORY_MAX)]: push, then splice the excess
    off the front. [splice] clamps its delete count to the length. *)
Definition pushLimited (arr : list value) (v : value) (max : Z) : list value :=
  let arr' := (arr ++ [v])%list in
  if (max <? Z.of_nat (length arr'))%Z
  then drop (Z.to_nat (Z.of_nat (length arr') - max)) arr'
  else arr'.

(** [fmt(v, d = 2)]. *)
Definition fmt (v : value) (d : Z) : completion string :=
  if (match v with Null | Undefined => true | _ => false end) || Number_isNaN v
  then Normal "--"
  else
    let? x := ToNumber v in
    match Num.toFixed x d with
    | Some s => Normal s
    | None => Throw RangeError
    end.

(** ** Recommendation *)

Definition lit_0_7 : number := Eval vm_compute in of_decimal false 7 (-1).
Definition lit_0_5 : number := Eval vm_compute in of_decimal false 5 (-1).
Definition lit_75 : number := Eval vm_compute in of_decimal false 75 0.
Definition lit_4_0 : number := Eval vm_compute in of_decimal false 40 (-1).

Definition MSG_MARKER : string :=
  "Show the ArUco marker to enable precise distance monitoring.".
Definition MSG_CRITICAL : string :=
  "CRITICAL — Auto-STOP active. Increase distance and lower load.".
Definition MSG_REDUCE : string :=
  "WARNING — Reduce speed/load to drop temperature/pressure.".
Definition MSG_MAINTAIN : string :=
  "WARNING — Maintain distance and monitor vibration levels.".
Definition MSG_SAFE : string :=
  "SAFE — Conditions nominal. Maintain current settings.".

Definition recommend (s risk d : value) : completion string :=
  if loose_eq_null d then Normal MSG_MARKER
  else
    let? critical := value_ge risk lit_0_7 in
    if critical then Normal MSG_CRITICAL
    else
      let? elevated := value_ge risk lit_0_5 in
      if elevated then
        let? t := get s "temperature_c" in
        let? hot := value_gt t lit_75 in
        if hot then Normal MSG_REDUCE
        else
          let? p := get s "pressure_bar" in
          let? high := value_gt p lit_4_0 in
          if high then Normal MSG_REDUCE
          else Normal MSG_MAINTAIN
      else Normal MSG_SAFE.

(** ** State

    The module-level arrays, the page (elements by id), the two chart
    handles, and what the script hands to the browser: console output,
    timeouts, HTTP requests and click listeners. *)

Record sensors_hist := {
  temperature_c : list value;
  pressure_bar : list value;
  load_pct : list value;
  throughput : list value;
  vibration : list value;
  humidity : list value
}.

Inductive content :=
  | Text (s : string)
  | Html (s : string).

Record element := {
  el_content : content;
  classList : list string;
  transform : string
}.

(** The arrays a chart was built over: it holds the array objects
    themselves, so it is the current contents that [update] draws. *)
Inductive array_ref :=
  | RLabels
  | RTemperature | RPressure | RLoad | RThroughput | RVibration | RHumidity
  | RRisk.

Record chart := {
  has_canvas : bool;
  chart_labels : array_ref;
  chart_datasets : list (string * array_ref);
  y_beginAtZero : bool;
  y_range : option (number * number);
  legend_display : bool;
  drawn_labels : list value;
  drawn_data : list (list value)
}.

Inductive handler :=
  | ClickTriggerStress (seconds intensity : value)
  | ClickStopStress.

Inductive callback :=
  | ResetTransform (id : string) (to : string).

Record world := {
  labels : list value;
  sensorsHist : sensors_hist;
  riskHist : list value;
  document : gmap string element;
  sensorChart : option chart;
  riskChart : option chart;
  console : list (string * error);
  timeouts : list (callback * Z);
  requests : list (string * string);
  listeners : list (string * handler)
}.

Definition set_labels (l : list value) (w : world) : world :=
  {| labels := l; sensorsHist := sensorsHist w; riskHist := riskHist w;
     document := document w; sensorChart := sensorChart w;
     riskChart := riskChart w; console := console w; timeouts := timeouts w;
     requests := requests w; listeners := listeners w |}.

Definition set_sensorsHist (h : sensors_hist) (w : world) : world :=
  {| labels := labels w; sensorsHist := h; riskHist := riskHist w;
     document := document w; sensorChart := sensorChart w;
     riskChart := riskChart w; console := console w; timeouts := timeouts w;
     requests := requests w; listeners := listeners w |}.

Definition set_riskHist (l : list value) (w : world) : world :=
  {| labels := labels w; sensorsHist := sensorsHist w; riskHist := l;
     document := document w; sensorChart := sensorChart w;
     riskChart := riskChart w; console := console w; timeouts := timeouts w;
     requests := requests w; listeners := listeners w |}.

Definition set_document (d : gmap string element) (w : world) : world :=
  {| labels := labels w; sensorsHist := sensorsHist w; riskHist := riskHist w;
     document := d; sensorChart := sensorChart w;
     riskChart := riskChart w; console := console w; timeouts := timeouts w;
     requests := requests w; listeners := listeners w |}.

Definition set_charts (sc rc : option chart) (w : world) : world :=
  {| labels := labels w; sensorsHist := sensorsHist w; riskHist := riskHist w;
     document := document w; sensorChart := sc;
     riskChart := rc; console := console w; timeouts := timeouts w;
     requests := requests w; listeners := listeners w |}.

Definition set_console (c : list (string * error)) (w : world) : world :=
  {| labels := labels w; sensorsHist := sensorsHist w; riskHist := riskHist w;
     document := document w; sensorChart := sensorChart w;
     riskChart := riskChart w; console := c; timeouts := timeouts w;
     requests := requests w; listeners := listeners w |}.

Definition set_timeouts (t : list (callback * Z)) (w : world) : world :=
  {| labels := labels w; sensorsHist := sensorsHist w; riskHist := riskHist w;
     document := document w; sensorChart := sensorChart w;
     riskChart := riskChart w; console := console w; timeouts := t;
     requests := requests w; listeners := listeners w |}.

Definition set_requests (r : list (string * string)) (w : world) : world :=
  {| labels := labels w; sensorsHist := sensorsHist w; riskHist := riskHist w;
     document := document w; sensorChart := sensorChart w;
     riskChart := riskChart w; console := console w; timeouts := timeouts w;
     requests := r; listeners := listeners w |}.

Definition set_listeners (l : list (string * handler)) (w : world) : world :=
  {| labels := labels w; sensorsHist := sensorsHist w; riskHist := riskHist w;
     document := document w; sensorChart := sensorChart w;
     riskChart := riskChart w; console := console w; timeouts := timeouts w;
     requests := requests w; listeners := l |}.

(** The state when the script starts, over a given page. *)
Definition initial (page : gmap string element) : world :=
  {| labels := [];
     sensorsHist := {| temperature_c := []; pressure_bar := []; load_pct := [];
                       throughput := []; vibration := []; humidity := [] |};
     riskHist := [];
     document := page; sensorChart := None; riskChart := None;
     console := []; timeouts := []; requests := []; listeners := [] |}.

(** ** Statements: state passing with exceptions

    A thrown exception keeps the mutations made before it. *)

Definition M (A : Type) : Type := world -> completion A * world.

Definition ret {A} (a : A) : M A := fun w => (Normal a, w).

Definition bind {A B} (m : M A) (k : A -> M B) : M B :=
  fun w => match m w with
           | (Normal a, w') => k a w'
           | (Throw e, w') => (Throw e, w')
           end.

Definition lift {A} (c : completion A) : M A := fun w => (c, w).

Definition modify (f : world -> world) : M unit := fun w => (Normal tt, f w).

Definition try_catch (body : M unit) (handler : error -> M unit) : M unit :=
  fun w => match body w with
           | (Normal a, w') => (Normal a, w')
           | (Throw e, w') => handler e w'
           end.

Notation "x <- m ;; k" := (bind m (fun x => k))
  (at level 100, m at next level, right associativity).
Notation "m ;;; k" := (bind m (fun _ => k))
  (at level 100, right associativity).

Definition console_error (msg : string) (e : error) : M unit :=
  modify (fun w => set_console (console w ++ [(msg, e)])%list w).

Definition request (method url : string) : M unit :=
  modify (fun w => set_requests (requests w ++ [(method, url)])%list w).

Definition setTimeout (cb : callback) (ms : Z) : M unit :=
  modify (fun w => set_timeouts (timeouts w ++ [(cb, ms)])%list w).

(** [document.getElementById(id)] *)
Definition getElementById (id : string) : M (option element) :=
  fun w => (Normal (document w !! id), w).

(** A write through an element handle obtained from the page. *)
Definition update_element (id : string) (f : element -> element) : M unit :=
  modify (fun w => set_document (alter f id (document w)) w).

Definition set_textContent (s : string) (el : element) : element :=
  {| el_content := Text s; classList := classList el; transform := transform el |}.

Definition set_innerHTML (s : string) (el : element) : element :=
  {| el_content := Html s; classList := classList el; transform := transform el |}.

Definition set_transform (s : string) (el : element) : element :=
  {| el_content := el_content el; classList := classList el; transform := s |}.

Definition set_classList (l : list string) (el : element) : element :=
  {| el_content := el_content el; classList := l; transform := transform el |}.

(** [DOMTokenList]: an ordered set of tokens. *)
Definition class_remove (tok : string) (l : list string) : list string :=
  filter (fun t => t ≠ tok) l.

Definition class_add (tok : string) (l : list string) : list string :=
  if decide (tok ∈ l) then l else (l ++ [tok])%list.

(** [toggle(token, force)] *)
Definition class_toggle (tok : string) (force : bool) (l : list string) : list string :=
  if force then class_add tok l else class_remove tok l.

Definition throw {A} (e : error) : M A := fun w => (Throw e, w).

(** ** KPI mount/update *)

Definition dquote : string := String (ascii_of_nat 34) "".
Definition newline : string := String (ascii_of_nat 10) "".

(** The markup [mountKPI] assigns to [innerHTML]. *)
Definition kpi_card (id label unit_ : string) : string :=
  newline ++
  "    <div class=" ++ dquote ++ "kpi-card" ++ dquote ++ ">" ++ newline ++
  "      <div class=" ++ dquote ++ "kpi-value" ++ dquote ++ " id=" ++ dquote
    ++ id ++ "-value" ++ dquote ++ ">--</div>" ++ newline ++
  "      <div class=" ++ dquote ++ "kpi-label" ++ dquote ++ ">" ++ label
    ++ " (" ++ unit_ ++ ")</div>" ++ newline ++
  "    </div>".

(** Assigning the markup gives the page the value element it declares,
    reachable by its id. *)
Definition mountKPI (id label unit_ : string) : M unit :=
  el <- getElementById id ;;
  match el with
  | None => ret tt
  | Some _ =>
      update_element id (set_innerHTML (kpi_card id label unit_)) ;;;
      modify (fun w =>
        set_document
          (<[ id ++ "-value" :=
                {| el_content := Text "--"; classList := ["kpi-value"];
                   transform := "" |} ]> (document w)) w)
  end.

Definition setKPI (id text : string) : M unit :=
  el <- getElementById (id ++ "-value") ;;
  match el with
  | Some _ => update_element (id ++ "-value") (set_textContent text)
  | None => ret tt
  end.

Definition mount_kpis : M unit :=
  mountKPI "kpi-temperature" "Temperature" "°C" ;;;
  mountKPI "kpi-pressure" "Pressure" "bar" ;;;
  mountKPI "kpi-load" "Load" "%" ;;;
  mountKPI "kpi-throughput" "Throughput" "u/s" ;;;
  mountKPI "kpi-vibration" "Vibration" "mm/s" ;;;
  mountKPI "kpi-humidity" "Humidity" "%".

(** ** Charts

    Of Chart.js only this is modelled: a chart keeps the arrays it was
    given and, when it was built over a canvas, paints their current
    contents at construction and on every [update]. *)

Definition deref (r : array_ref) (w : world) : list value :=
  match r with
  | RLabels => labels w
  | RTemperature => temperature_c (sensorsHist w)
  | RPressure => pressure_bar (sensorsHist w)
  | RLoad => load_pct (sensorsHist w)
  | RThroughput => throughput (sensorsHist w)
  | RVibration => vibration (sensorsHist w)
  | RHumidity => humidity (sensorsHist w)
  | RRisk => riskHist w
  end.

Definition paint (c : chart) (w : world) : chart :=
  if has_canvas c then
    {| has_canvas := true;
       chart_labels := chart_labels c; chart_datasets := chart_datasets c;
       y_beginAtZero := y_beginAtZero c; y_range := y_range c;
       legend_display := legend_display c;
       drawn_labels := deref (chart_labels c) w;
       drawn_data := map (fun d => deref (snd d) w) (chart_datasets c) |}
  else c.

Definition with_canvas (ctx : option element) (c : chart) : chart :=
  {| has_canvas := match ctx with Some _ => true | None => false end;
     chart_labels := chart_labels c; chart_datasets := chart_datasets c;
     y_beginAtZero := y_beginAtZero c; y_range := y_range c;
     legend_display := legend_display c;
     drawn_labels := drawn_labels c; drawn_data := drawn_data c |}.

Definition new_Chart (ctx : option element) (c : chart) : M chart :=
  fun w => (Normal (paint (with_canvas ctx c) w), w).

Definition makeSensorChart (ctx : option element) : M chart :=
  new_Chart ctx
    {| has_canvas := false;
       chart_labels := RLabels;
       chart_datasets :=
         [ ("Temp (°C)", RTemperature); ("Pressure (bar)", RPressure);
           ("Load (%)", RLoad); ("Throughput (u/s)", RThroughput);
           ("Vibration (mm/s)", RVibration); ("Humidity (%)", RHumidity) ];
       y_beginAtZero := true; y_range := None; legend_display := false;
       drawn_labels := []; drawn_data := [] |}.

Definition makeRiskChart (ctx : option element) : M chart :=
  new_Chart ctx
    {| has_canvas := false;
       chart_labels := RLabels;
       chart_datasets := [ ("Risk", RRisk) ];
       y_beginAtZero := false;
       y_range := Some (S754_zero false, of_Z 1);
       legend_display := false;
       drawn_labels := []; drawn_data := [] |}.

Definition mount_charts : M unit :=
  ctx1 <- getElementById "sensorChart" ;;
  sc <- makeSensorChart ctx1 ;;
  modify (fun w => set_charts (Some sc) (riskChart w) w) ;;;
  ctx2 <- getElementById "riskChart" ;;
  rc <- makeRiskChart ctx2 ;;
  modify (fun w => set_charts (sensorChart w) (Some rc) w).

(** [sensorChart?.update(); riskChart?.update();] *)
Definition update_charts : M unit :=
  modify (fun w => set_charts (option_map (fun c => paint c w) (sensorChart w))
                              (riskChart w) w) ;;;
  modify (fun w => set_charts (sensorChart w)
                              (option_map (fun c => paint c w) (riskChart w)) w).

(** ** Stress controls

    [outcome] is how the request ends: [Some e] when [fetch] rejects. *)

Definition default_arg (v d : value) : value :=
  match v with Undefined => d | _ => v end.

Definition triggerStress (seconds intensity : value) (outcome : option error) : M unit :=
  let seconds := default_arg seconds (Number (of_Z 30)) in
  let intensity := default_arg intensity (Number (of_decimal false 9 (-1))) in
  try_catch
    (s <- lift (ToString seconds) ;;
     i <- lift (ToString intensity) ;;
     request "POST" ("/stress/start?seconds=" ++ s ++ "&intensity=" ++ i) ;;;
     match outcome with Some e => throw e | None => ret tt end)
    (console_error "stress start failed").

Definition stopStress (outcome : option error) : M unit :=
  try_catch
    (request "POST" "/stress/stop" ;;;
     match outcome with Some e => throw e | None => ret tt end)
    (console_error "stress stop failed").

Definition addEventListener (id : string) (h : handler) : M unit :=
  el <- getElementById id ;;
  match el with
  | Some _ => modify (fun w => set_listeners (listeners w ++ [(id, h)])%list w)
  | None => ret tt
  end.

Definition mount_buttons : M unit :=
  addEventListener "btn-stress"
    (ClickTriggerStress (Number (of_Z 30)) (Number (of_decimal false 9 (-1)))) ;;;
  addEventListener "btn-stress-stop" ClickStopStress.

(** The three [DOMContentLoaded] listeners, in registration order. *)
Definition DOMContentLoaded : M unit :=
  mount_kpis ;;; mount_charts ;;; mount_buttons.

Definition run_handler (h : handler) (outcome : option error) : M unit :=
  match h with
  | ClickTriggerStress s i => triggerStress s i outcome
  | ClickStopStress => stopStress outcome
  end.

(** A click on the element [id]: its listeners run in order. *)
Fixpoint dispatch (id : string) (ls : list (string * handler))
                  (outcome : option error) : M unit :=
  match ls with
  | [] => ret tt
  | (id', h) :: rest =>
      (if String.eqb id id' then run_handler h outcome else ret tt) ;;;
      dispatch id rest outcome
  end.

Definition click (id : string) (outcome : option error) : M unit :=
  fun w => dispatch id (listeners w) outcome w.

(** ** Poll loop *)

Inductive channel :=
  | Temperature | Pressure | Load | Throughput | Vibration | Humidity.

Definition channel_key (c : channel) : string :=
  match c with
  | Temperature => "temperature_c"
  | Pressure => "pressure_bar"
  | Load => "load_pct"
  | Throughput => "throughput"
  | Vibration => "vibration"
  | Humidity => "humidity"
  end.

Definition channel_hist (c : channel) (h : sensors_hist) : list value :=
  match c with
  | Temperature => temperature_c h
  | Pressure => pressure_bar h
  | Load => load_pct h
  | Throughput => throughput h
  | Vibration => vibration h
  | Humidity => humidity h
  end.

Definition set_channel (c : channel) (l : list value) (h : sensors_hist) : sensors_hist :=
  {| temperature_c := match c with Temperature => l | _ => temperature_c h end;
     pressure_bar := match c with Pressure => l | _ => pressure_bar h end;
     load_pct := match c with Load => l | _ => load_pct h end;
     throughput := match c with Throughput => l | _ => throughput h end;
     vibration := match c with Vibration => l | _ => vibration h end;
     humidity := match c with Humidity => l | _ => humidity h end |}.

(** How a poll ends at the network: [fetch] rejects, [r.json()] rejects,
    or a body is parsed. *)
Inductive response :=
  | FetchRejected (e : error)
  | JsonRejected (e : error)
  | Json (data : value).

Definition fetch_json (r : response) : M value :=
  request "GET" "/sensor_data" ;;;
  match r with
  | FetchRejected e => throw e
  | JsonRejected e => throw e
  | Json data => ret data
  end.

(** [Number(v ?? 0)] *)
Definition Number_or_0 (v : value) : completion value :=
  let? x := ToNumber (coalesce v (Number (S754_zero false))) in Normal (Number x).

(** [pushLimited(labels, ts)] *)
Definition push_label (ts : string) : M unit :=
  modify (fun w => set_labels (pushLimited (labels w) (Str ts) HISTORY_MAX) w).

(** [pushLimited(sensorsHist.<c>, Number(s.<c> ?? 0))] *)
Definition push_channel (c : channel) (s : value) : M unit :=
  raw <- lift (get s (channel_key c)) ;;
  v <- lift (Number_or_0 raw) ;;
  modify (fun w =>
    set_sensorsHist
      (set_channel c (pushLimited (channel_hist c (sensorsHist w)) v HISTORY_MAX)
                   (sensorsHist w)) w).

(** [pushLimited(riskHist, risk)] *)
Definition push_risk (risk : value) : M unit :=
  modify (fun w => set_riskHist (pushLimited (riskHist w) risk HISTORY_MAX) w).

Definition append_history (ts : string) (s risk : value) : M unit :=
  push_label ts ;;;
  push_channel Temperature s ;;;
  push_channel Pressure s ;;;
  push_channel Load s ;;;
  push_channel Throughput s ;;;
  push_channel Vibration s ;;;
  push_channel Humidity s ;;;
  push_risk risk.

(** [setKPI(id, fmt(s.<c>, d))] *)
Definition show_kpi (id : string) (c : channel) (d : Z) (s : value) : M unit :=
  raw <- lift (get s (channel_key c)) ;;
  text <- lift (fmt raw d) ;;
  setKPI id text.

Definition update_kpis (s : value) : M unit :=
  show_kpi "kpi-temperature" Temperature 1 s ;;;
  show_kpi "kpi-pressure" Pressure 2 s ;;;
  show_kpi "kpi-load" Load 0 s ;;;
  show_kpi "kpi-throughput" Throughput 0 s ;;;
  show_kpi "kpi-vibration" Vibration 2 s ;;;
  show_kpi "kpi-humidity" Humidity 0 s.

Definition update_state (data : value) : M unit :=
  stateEl <- getElementById "system-state" ;;
  match stateEl with
  | None => ret tt
  | Some _ =>
      st <- lift (get data "system_state") ;;
      text <- lift (ToString (or_else st (Str "RUNNING"))) ;;
      update_element "system-state" (set_textContent text) ;;;
      st1 <- lift (get data "system_state") ;;
      update_element "system-state"
        (fun el => set_classList
           (class_toggle "status-running" (strict_eq_str st1 "RUNNING") (classList el)) el) ;;;
      st2 <- lift (get data "system_state") ;;
      update_element "system-state"
        (fun el => set_classList
           (class_toggle "status-stopped" (strict_eq_str st2 "STOPPED") (classList el)) el) ;;;
      update_element "system-state" (set_transform "scale(1.04)") ;;;
      setTimeout (ResetTransform "system-state" "scale(1.0)") 120
  end.

Definition default_stress : value :=
  Object [("active", Bool false); ("seconds_left", Number (S754_zero false))].

Definition update_stress (data : value) : M unit :=
  sv <- lift (get data "stress") ;;
  let stress := or_else sv default_stress in
  banner <- getElementById "stress-banner" ;;
  timer <- getElementById "stress-timer" ;;
  match banner, timer with
  | Some _, Some _ =>
      active <- lift (get stress "active") ;;
      if ToBoolean active then
        update_element "stress-banner"
          (fun el => set_classList (class_remove "d-none" (classList el)) el) ;;;
        left <- lift (get stress "seconds_left") ;;
        text <- lift (ToString left) ;;
        update_element "stress-timer" (set_textContent text)
      else
        update_element "stress-banner"
          (fun el => set_classList (class_add "d-none" (classList el)) el)
  | _, _ => ret tt
  end.

Definition update_recommendation (s risk dist : value) : M unit :=
  rec <- getElementById "recommendation" ;;
  match rec with
  | Some _ =>
      text <- lift (recommend s risk dist) ;;
      update_element "recommendation" (set_textContent text)
  | None => ret tt
  end.

(** Lines 116-130 of the [try] block: fetch, parse, coerce and append.
    [now] is [new Date().toLocaleTimeString()]. *)
Definition ingest (r : response) (now : string) : M (value * value * value * value) :=
  data <- fetch_json r ;;
  sv <- lift (get data "sensors") ;;
  let s := or_else sv (Object []) in
  rv <- lift (get data "risk") ;;
  risk <- lift (Number_or_0 rv) ;;
  dist <- lift (get data "distance_m") ;;
  append_history now s risk ;;;
  ret (data, s, risk, dist).

(** Lines 132-160: redraw and write to the page. *)
Definition render (data s risk dist : value) : M unit :=
  update_charts ;;;
  update_kpis s ;;;
  update_state data ;;;
  update_stress data ;;;
  update_recommendation s risk dist.

(** The body of the [try] block. *)
Definition tick_body (r : response) (now : string) : M unit :=
  f <- ingest r now ;;
  let '(data, s, risk, dist) := f in
  render data s risk dist.

Definition tick (r : response) (now : string) : M unit :=
  try_catch (tick_body r now) (console_error "poll failed").

(** The state a tick leaves. *)
Definition after_tick (r : response) (now : string) (w : world) : world :=
  snd (tick r now w).

(** [setInterval(tick, POLL_MS); tick();]: the ticks in the order in which
    their responses arrive. *)
Definition poll (ticks : list (response * string)) (w : world) : world :=
  fold_left (fun w t => after_tick (fst t) (snd t) w) ticks w.

(** The states after each tick of a poll. *)
Fixpoint poll_trace (ticks : list (response * string)) (w : world) : list world :=
  match ticks with
  | [] => []
  | t :: rest =>
      let w' := after_tick (fst t) (snd t) w in w' :: poll_trace rest w'
  end.

(** * Vocabulary of the properties *)

(** [keeps R m]: whatever [m] does, and however it ends, the state it
    leaves is related by [R] to the one it started from. *)
Definition keeps (R : world -> world -> Prop) {A} (m : M A) : Prop :=
  forall w, R w (snd (m w)).

(** [respects S m]: from [S]-related states [m] ends the same way, in
    [S]-related states. *)
Definition respects (S : world -> world -> Prop) {A} (m : M A) : Prop :=
  forall w1 w2, S w1 w2 -> fst (m w1) = fst (m w2) /\ S (snd (m w1)) (snd (m w2)).

(** The number a comparison sees when it reads the property [k] of [s]. *)
Definition reading (s : value) (k : string) : completion number :=
  let? v := get s k in ToNumber v.






(** The module-level history arrays. *)
Definition same_history (w w' : world) : Prop :=
  labels w' = labels w /\ sensorsHist w' = sensorsHist w /\ riskHist w' = riskHist w.

(** The element with a given id. *)
Definition same_element (id : string) (w w' : world) : Prop :=
  document w' !! id = document w !! id.

Definition zero : value := Number (S754_zero false).

Definition aligned (w : world) : Prop :=
  (length (labels w) <= 30)%nat
  /\ (forall c, length (channel_hist c (sensorsHist w)) = length (labels w))
  /\ length (riskHist w) = length (labels w).

Definition succeeded {A} (c : completion A) : bool :=
  match c with Normal _ => true | Throw _ => false end.

(** Every tick of the run got through its appends. *)
Fixpoint all_appended (ticks : list (response * string)) (w : world) : bool :=
  match ticks with
  | [] => true
  | t :: rest =>
      succeeded (fst (ingest (fst t) (snd t) w))
      && all_appended rest (after_tick (fst t) (snd t) w)
  end.

(** A poll that fails at the network: [fetch] rejects, the body does not
    parse, or it parses to [null]. *)
Definition failed (r : response) : bool :=
  match r with
  | FetchRejected _ | JsonRejected _ | Json Null => true
  | Json _ => false
  end.

Definition kpi_slots : list string :=
  [ "kpi-temperature-value"; "kpi-pressure-value"; "kpi-load-value";
    "kpi-throughput-value"; "kpi-vibration-value"; "kpi-humidity-value" ].

(** The state element as [update_state] leaves it. *)
Definition shown_state (st : value) (text : string) (el : element) : element :=
  {| el_content := Text text;
     classList :=
       class_toggle "status-stopped" (strict_eq_str st "STOPPED")
         (class_toggle "status-running" (strict_eq_str st "RUNNING") (classList el));
     transform := "scale(1.04)" |}.

(** The banner and the countdown as [update_stress] leaves them. *)
Definition shown_banner (el : element) : element :=
  set_classList (class_remove "d-none" (classList el)) el.

Definition hidden_banner (el : element) : element :=
  set_classList (class_add "d-none" (classList el)) el.

Definition demo_banner : element :=
  {| el_content := Text ""; classList := ["alert"; "d-none"]; transform := "" |}.

Definition demo_timer : element :=
  {| el_content := Text ""; classList := []; transform := "" |}.

Definition demo_page : gmap string element :=
  {[ "stress-banner" := demo_banner; "stress-timer" := demo_timer ]}.

Definition demo_stress_frame : value :=
  Object [("stress", Object [("active", Bool true);
                             ("seconds_left", Number (of_Z 12))])].

(** The state with the slot [id] taken off the page. *)
Definition without (id : string) (w : world) : world :=
  set_document (delete id (document w)) w.

(** [w1] has the page of [w2] less the slot [id]. *)
Definition page_less (id : string) (w1 w2 : world) : Prop :=
  document w1 = delete id (document w2).

(** [follows S m]: when [m] runs to completion from the second of two
    [S]-related states, it does so from the first, with the same result,
    and leaves them [S]-related. *)
Definition follows (S : world -> world -> Prop) {A} (m : M A) : Prop :=
  forall w1 w2, S w1 w2 -> forall a w2', m w2 = (Normal a, w2') ->
    exists w1', m w1 = (Normal a, w1') /\ S w1' w2'.

(** The banner and the countdown are left alone unless both are there. *)
Definition stress_pair_kept (w w' : world) : Prop :=
  document w !! "stress-banner" = None \/ document w !! "stress-timer" = None ->
  same_element "stress-banner" w w' /\ same_element "stress-timer" w w'.

Definition demo_state : element :=
  {| el_content := Text ""; classList := []; transform := "" |}.

Definition demo_full_page : gmap string element :=
  {[ "stress-banner" := demo_banner; "stress-timer" := demo_timer;
     "system-state" := demo_state; "kpi-load-value" := demo_state;
     "recommendation" := demo_state ]}.

(** Requests, listeners and the two buttons. *)
Definition same_controls (w w' : world) : Prop :=
  requests w' = requests w /\ listeners w' = listeners w
  /\ same_element "btn-stress" w w' /\ same_element "btn-stress-stop" w w'.

(** What the script has sent and logged. *)
Definition same_log (w w' : world) : Prop :=
  requests w' = requests w /\ console w' = console w.

Definition is_number (v : value) : bool :=
  match v with Number _ => true | _ => false end.

Definition is_string (v : value) : bool :=
  match v with Str _ => true | _ => false end.

(** Every array holds at most 30 entries, the labels strings and the
    others numbers. *)
Definition history_ok (w : world) : Prop :=
  ((length (labels w) <= 30)%nat /\ Forall (fun v => is_string v = true) (labels w))
  /\ (forall c, (length (channel_hist c (sensorsHist w)) <= 30)%nat
                /\ Forall (fun v => is_number v = true) (channel_hist c (sensorsHist w)))
  /\ ((length (riskHist w) <= 30)%nat
      /\ Forall (fun v => is_number v = true) (riskHist w)).

Definition history_ok_kept (w w' : world) : Prop := history_ok w -> history_ok w'.

(** The KPI cards: container id, channel, decimals. *)
Definition kpi_table : list (string * channel * Z) :=
  [ ("kpi-temperature", Temperature, 1%Z); ("kpi-pressure", Pressure, 2%Z);
    ("kpi-load", Load, 0%Z); ("kpi-throughput", Throughput, 0%Z);
    ("kpi-vibration", Vibration, 2%Z); ("kpi-humidity", Humidity, 0%Z) ].

(** Values other than arrays and objects. *)
Definition primitive (v : value) : bool :=
  match v with Array _ | Object _ => false | _ => true end.

(** The property [k] of [v], absent when it cannot be read. *)
Definition field (v : value) (k : string) : value :=
  match get v k with Normal x => x | Throw _ => Undefined end.

(** A frame in which every field the tick converts is a primitive value
    (or absent). *)
Definition plain_frame (data : value) : Prop :=
  is_nullish data = false
  /\ (forall c, primitive (field (or_else (field data "sensors") (Object []))
                                 (channel_key c)) = true)
  /\ primitive (field data "risk") = true
  /\ primitive (field data "system_state") = true
  /\ primitive (field (or_else (field data "stress") default_stress) "seconds_left") = true.

(** [returns P m]: from every state [m] completes with a result in [P]. *)
Definition returns {A} (P : A -> Prop) (m : M A) : Prop :=
  forall w, exists a w', m w = (Normal a, w') /\ P a.


(** * Properties *)

(** ** The bounded buffer *)

Lemma pushLimited_drop (arr : list value) (v : value) (max : Z) :
  pushLimited arr v max
  = drop (Z.to_nat (Z.of_nat (length arr + 1) - max)) (arr ++ [v])%list.
Proof.
  unfold pushLimited. rewrite length_app. simpl.
  destruct (Z.ltb_spec max (Z.of_nat (length arr + 1))) as [H|H]; [reflexivity|].
  replace (Z.to_nat (Z.of_nat (length arr + 1) - max)) with 0%nat by lia.
  reflexivity.
Qed.

Lemma pushLimited_length (arr : list value) (v : value) (max : Z) :
  (0 <= max)%Z ->
  length (pushLimited arr v max) = Nat.min (length arr + 1) (Z.to_nat max).
Proof.
  intros Hmax. rewrite pushLimited_drop, length_drop, length_app. simpl. lia.
Qed.

Lemma pushLimited_history_length (arr : list value) (v : value) :
  length (pushLimited arr v HISTORY_MAX) = Nat.min (length arr + 1) 30.
Proof. rewrite pushLimited_length; [reflexivity | unfold HISTORY_MAX; lia]. Qed.

(** Pushing a run of values keeps the tail of everything pushed so far. *)
Lemma pushLimited_fold (max : Z) (vs arr : list value) :
  (0 <= max)%Z ->
  (length arr <= Z.to_nat max)%nat ->
  fold_left (fun a v => pushLimited a v max) vs arr
  = drop (length arr + length vs - Z.to_nat max) (arr ++ vs)%list.
Proof.
  intros Hmax. revert arr.
  induction vs as [|v vs IH]; intros arr Hlen; simpl.
  - rewrite app_nil_r. replace (length arr + 0 - Z.to_nat max)%nat with 0%nat by lia.
    reflexivity.
  - rewrite IH.
    + rewrite pushLimited_length by assumption.
      rewrite pushLimited_drop.
      set (k := Z.to_nat (Z.of_nat (length arr + 1) - max)).
      assert (Hk : (k <= length (arr ++ [v]))%nat)
        by (rewrite length_app; simpl; lia).
      rewrite <- (drop_app_le _ vs) by exact Hk.
      rewrite drop_drop, <- app_assoc. simpl.
      f_equal. lia.
    + rewrite pushLimited_length by assumption. lia.
Qed.

(** C3. Once more than 30 values have been pushed onto a history sequence
    (which never held more than 30), it holds exactly the 30 most recent of
    the pushed values, oldest first. *)
Theorem pushLimited_keeps_most_recent (arr vs : list value) :
  (length arr <= 30)%nat ->
  (30 < length vs)%nat ->
  fold_left (fun a v => pushLimited a v HISTORY_MAX) vs arr
  = drop (length vs - 30) vs
  /\ length (fold_left (fun a v => pushLimited a v HISTORY_MAX) vs arr) = 30%nat.
Proof.
  intros Harr Hvs.
  assert (E : fold_left (fun a v => pushLimited a v HISTORY_MAX) vs arr
              = drop (length vs - 30) vs).
  { rewrite pushLimited_fold by (unfold HISTORY_MAX; lia).
    change (Z.to_nat HISTORY_MAX) with 30%nat.
    rewrite drop_app_ge by lia. f_equal. lia. }
  split; [exact E|].
  rewrite E, length_drop. lia.
Qed.

Lemma pushLimited_keeps_most_recent_witness :
  fold_left (fun a v => pushLimited a v HISTORY_MAX)
            (map (fun n => Number (of_Z (Z.of_nat n))) (seq 0 32)) []
  = map (fun n => Number (of_Z (Z.of_nat n))) (seq 2 30)
  /\ length (fold_left (fun a v => pushLimited a v HISTORY_MAX)
               (map (fun n => Number (of_Z (Z.of_nat n))) (seq 0 32)) []) = 30%nat.
Proof.
  apply (pushLimited_keeps_most_recent []
           (map (fun n => Number (of_Z (Z.of_nat n))) (seq 0 32)));
    rewrite ?length_map, ?length_seq; simpl; lia.
Defined.

(** ** Comparisons against the advisory thresholds *)

Lemma lt_not_ge (x y : number) : Num.lt x y = true -> Num.ge x y = false.
Proof. unfold Num.lt, Num.ge. destruct (lessThan x y) as [[|]|]; congruence. Qed.

Lemma compare_cont_lt_trans (m a b : positive) :
  (a < b)%positive -> Pos.compare_cont Eq m a = Lt -> Pos.compare_cont Eq m b = Lt.
Proof.
  intros Hab H. change (Pos.compare m a = Lt) in H. change (Pos.compare m b = Lt).
  exact (Pos.lt_trans _ _ _ H Hab).
Qed.

Lemma below_0_5_below_0_7 (r : number) :
  Num.lt r lit_0_5 = true -> Num.lt r lit_0_7 = true.
Proof.
  unfold Num.lt, lessThan, lit_0_5, lit_0_7, SFcompare.
  destruct r as [s|s| |s m e]; try (destruct s); try congruence.
  destruct (Z.compare e (-53)); try congruence.
  destruct (Pos.compare_cont Eq m 4503599627370496) eqn:E; try congruence.
  intros _.
  rewrite (compare_cont_lt_trans m 4503599627370496 6305039478318694 (eq_refl Lt) E).
  reflexivity.
Qed.

(** C1. With a distance present, the advisory is the critical message when
    risk >= 0.7, the reduce-speed warning when 0.5 <= risk < 0.7 and
    temperature_c > 75 or pressure_bar > 4.0, the maintain-distance warning
    when 0.5 <= risk < 0.7 and neither holds, and the safe message when
    risk < 0.5. The risk thresholds include 0.7 and 0.5; the sensor
    thresholds exclude 75 and 4.0. *)
Theorem recommend_thresholds (s risk d : value) (r t p : number) :
  loose_eq_null d = false ->
  ToNumber risk = Normal r ->
  reading s "temperature_c" = Normal t ->
  reading s "pressure_bar" = Normal p ->
  (Num.ge r lit_0_7 = true -> recommend s risk d = Normal MSG_CRITICAL)
  /\ (Num.ge r lit_0_5 = true -> Num.lt r lit_0_7 = true ->
      Num.gt t lit_75 || Num.gt p lit_4_0 = true ->
      recommend s risk d = Normal MSG_REDUCE)
  /\ (Num.ge r lit_0_5 = true -> Num.lt r lit_0_7 = true ->
      Num.gt t lit_75 || Num.gt p lit_4_0 = false ->
      recommend s risk d = Normal MSG_MAINTAIN)
  /\ (Num.lt r lit_0_5 = true -> recommend s risk d = Normal MSG_SAFE)
  /\ Num.ge lit_0_7 lit_0_7 = true /\ Num.ge lit_0_5 lit_0_5 = true
  /\ Num.gt lit_75 lit_75 = false /\ Num.gt lit_4_0 lit_4_0 = false.
Proof.
  intros Hd Hr Ht Hp.
  unfold reading in Ht, Hp.
  destruct (get s "temperature_c") as [tv|] eqn:Etv; cbn [cbind] in Ht; [|discriminate].
  destruct (get s "pressure_bar") as [pv|] eqn:Epv; cbn [cbind] in Hp; [|discriminate].
  assert (Hrec : recommend s risk d
                 = if Num.ge r lit_0_7 then Normal MSG_CRITICAL
                   else if Num.ge r lit_0_5 then
                          if Num.gt t lit_75 || Num.gt p lit_4_0
                          then Normal MSG_REDUCE else Normal MSG_MAINTAIN
                        else Normal MSG_SAFE).
  { unfold recommend, value_ge, value_gt. rewrite Hd, Hr. cbn [cbind].
    destruct (Num.ge r lit_0_7); [reflexivity|].
    destruct (Num.ge r lit_0_5); [|reflexivity].
    rewrite Etv. cbn [cbind]. rewrite Ht. cbn [cbind].
    destruct (Num.gt t lit_75); [reflexivity|].
    rewrite Epv. cbn [cbind]. rewrite Hp. cbn [cbind].
    destruct (Num.gt p lit_4_0); reflexivity. }
  rewrite Hrec.
  repeat split.
  - intros ->. reflexivity.
  - intros H5 H7 Hs. rewrite (lt_not_ge _ _ H7), H5, Hs. reflexivity.
  - intros H5 H7 Hs. rewrite (lt_not_ge _ _ H7), H5, Hs. reflexivity.
  - intros H5. rewrite (lt_not_ge _ _ (below_0_5_below_0_7 _ H5)).
    rewrite (lt_not_ge _ _ H5). reflexivity.
Qed.

Lemma recommend_thresholds_witness :
  recommend (Object [("temperature_c", Number (of_Z 80));
                     ("pressure_bar", Number (of_Z 2))])
            (Number (of_decimal false 55 (-2))) (Number (of_decimal false 12 (-1)))
  = Normal MSG_REDUCE.
Proof.
  refine (proj1 (proj2 (recommend_thresholds
            (Object [("temperature_c", Number (of_Z 80));
                     ("pressure_bar", Number (of_Z 2))])
            (Number (of_decimal false 55 (-2))) (Number (of_decimal false 12 (-1)))
            (of_decimal false 55 (-2)) (of_Z 80) (of_Z 2) _ _ _ _)) _ _ _);
    vm_compute; reflexivity.
Defined.

(** C6. When the distance is absent ([undefined] or [null]) the advisory is
    the marker prompt, whatever the sensors and the risk are. *)
Theorem recommend_absent_distance (s risk d : value) :
  loose_eq_null d = true -> recommend s risk d = Normal MSG_MARKER.
Proof. intros H. unfold recommend. rewrite H. reflexivity. Qed.

Lemma recommend_absent_distance_witness :
  recommend Null (Str "high") Undefined = Normal MSG_MARKER.
Proof. apply (recommend_absent_distance Null (Str "high") Undefined). reflexivity. Defined.

(** ** Shape of formatted numbers *)

























(** ** Running statements *)

Lemma bind_Normal {A B} (m : M A) (k : A -> M B) (w w' : world) (b : B) :
  bind m k w = (Normal b, w') ->
  exists a w1, m w = (Normal a, w1) /\ k a w1 = (Normal b, w').
Proof.
  unfold bind. destruct (m w) as [[a|e] w1]; [eauto | discriminate].
Qed.

Lemma bind_run {A B} (m : M A) (k : A -> M B) (w w1 : world) (a : A) :
  m w = (Normal a, w1) -> bind m k w = k a w1.
Proof. unfold bind. intros ->. reflexivity. Qed.

Lemma lift_Normal {A} (c : completion A) (w w' : world) (a : A) :
  lift c w = (Normal a, w') -> c = Normal a /\ w' = w.
Proof. unfold lift. intros [= -> ->]. auto. Qed.

(** *** Frame conditions

    [keeps R m]: whatever [m] does, and however it ends, the state it
    leaves is related by [R] to the one it started from. *)

Section Keeps.
Variable R : world -> world -> Prop.
Hypothesis R_refl : forall w, R w w.
Hypothesis R_trans : forall a b c, R a b -> R b c -> R a c.

Lemma keeps_ret {A} (a : A) : keeps R (ret a).
Proof. intros w. apply R_refl. Qed.

Lemma keeps_lift {A} (c : completion A) : keeps R (lift c).
Proof. intros w. apply R_refl. Qed.

Lemma keeps_throw {A} (e : error) : keeps R (@throw A e).
Proof. intros w. apply R_refl. Qed.

Lemma keeps_getElementById (id : string) : keeps R (getElementById id).
Proof. intros w. apply R_refl. Qed.

Lemma keeps_bind {A B} (m : M A) (k : A -> M B) :
  keeps R m -> (forall a, keeps R (k a)) -> keeps R (bind m k).
Proof.
  intros Hm Hk w. unfold bind. specialize (Hm w).
  destruct (m w) as [[a|e] w1]; cbn [snd] in *; [|exact Hm].
  eapply R_trans; [exact Hm | apply Hk].
Qed.

Lemma keeps_try_catch (body : M unit) (h : error -> M unit) :
  keeps R body -> (forall e, keeps R (h e)) -> keeps R (try_catch body h).
Proof.
  intros Hb Hh w. unfold try_catch. specialize (Hb w).
  destruct (body w) as [[a|e] w1]; cbn [snd] in *; [exact Hb|].
  eapply R_trans; [exact Hb | apply Hh].
Qed.

Lemma keeps_modify (f : world -> world) :
  (forall w, R w (f w)) -> keeps R (modify f).
Proof. intros Hf w. apply Hf. Qed.

End Keeps.

Lemma same_history_refl (w : world) : same_history w w.
Proof. repeat split. Qed.

Lemma same_history_trans (a b c : world) :
  same_history a b -> same_history b c -> same_history a c.
Proof. unfold same_history. intuition congruence. Qed.

Lemma same_element_refl (id : string) (w : world) : same_element id w w.
Proof. reflexivity. Qed.

Lemma same_element_trans (id : string) (a b c : world) :
  same_element id a b -> same_element id b c -> same_element id a c.
Proof. unfold same_element. congruence. Qed.

Create HintDb frame discriminated.

Ltac frame_side :=
  first [ exact same_history_refl | exact same_history_trans
        | exact (same_element_refl _) | exact (same_element_trans _) ].

Ltac keeps_step :=
  first
    [ apply keeps_ret; frame_side
    | apply keeps_lift; frame_side
    | apply keeps_throw; frame_side
    | apply keeps_getElementById; frame_side
    | apply keeps_bind; [ frame_side | | intros ? ]
    | apply keeps_try_catch; [ frame_side | | intros ? ]
    | match goal with |- keeps _ (match ?o with Some _ => _ | None => _ end) =>
        destruct o end
    | match goal with |- keeps _ (if ?b then _ else _) => destruct b end
    | match goal with |- keeps _ (let '(_, _) := ?p in _) => destruct p end ].

Ltac keeps_auto := repeat first [ solve [auto 1 with frame nocore] | keeps_step ].

(** *** The page writes leave the history alone *)

Lemma update_element_history (id : string) (f : element -> element) :
  keeps same_history (update_element id f).
Proof. apply keeps_modify. intros w. repeat split. Qed.

Lemma setTimeout_history (cb : callback) (ms : Z) :
  keeps same_history (setTimeout cb ms).
Proof. apply keeps_modify. intros w. repeat split. Qed.

Lemma console_error_history (msg : string) (e : error) :
  keeps same_history (console_error msg e).
Proof. apply keeps_modify. intros w. repeat split. Qed.

Lemma request_history (method url : string) :
  keeps same_history (request method url).
Proof. apply keeps_modify. intros w. repeat split. Qed.

Lemma update_charts_history : keeps same_history update_charts.
Proof.
  unfold update_charts. repeat keeps_step; apply keeps_modify; intros w; repeat split.
Qed.

#[export] Hint Resolve update_element_history setTimeout_history
  console_error_history request_history update_charts_history : frame.

Lemma setKPI_history (id text : string) : keeps same_history (setKPI id text).
Proof. unfold setKPI. keeps_auto. Qed.

#[export] Hint Resolve setKPI_history : frame.

Lemma update_kpis_history (s : value) : keeps same_history (update_kpis s).
Proof. unfold update_kpis, show_kpi. keeps_auto. Qed.

Lemma update_state_history (data : value) : keeps same_history (update_state data).
Proof. unfold update_state. keeps_auto. Qed.

Lemma update_stress_history (data : value) : keeps same_history (update_stress data).
Proof. unfold update_stress. keeps_auto. Qed.

Lemma update_recommendation_history (s risk dist : value) :
  keeps same_history (update_recommendation s risk dist).
Proof. unfold update_recommendation. keeps_auto. Qed.

#[export] Hint Resolve update_kpis_history update_state_history
  update_stress_history update_recommendation_history : frame.

Lemma render_history (data s risk dist : value) :
  keeps same_history (render data s risk dist).
Proof. unfold render. keeps_auto. Qed.

(** ** Ingestion *)

Lemma Number_or_0_Normal (raw v : value) :
  Number_or_0 raw = Normal v ->
  exists n, ToNumber (coalesce raw zero) = Normal n /\ v = Number n.
Proof.
  unfold Number_or_0. fold zero.
  destruct (ToNumber (coalesce raw zero)) as [n|]; cbn [cbind]; [|discriminate].
  intros [= <-]. eauto.
Qed.

Lemma push_channel_Normal (c : channel) (s : value) (w w' : world) :
  push_channel c s w = (Normal tt, w') ->
  exists raw n,
    get s (channel_key c) = Normal raw
    /\ ToNumber (coalesce raw zero) = Normal n
    /\ w' = set_sensorsHist
              (set_channel c (pushLimited (channel_hist c (sensorsHist w))
                                          (Number n) HISTORY_MAX)
                           (sensorsHist w)) w.
Proof.
  unfold push_channel. intros H.
  apply bind_Normal in H as (raw & w1 & H1 & H).
  apply lift_Normal in H1 as [H1 ->].
  apply bind_Normal in H as (v & w2 & H2 & H).
  apply lift_Normal in H2 as [H2 ->].
  apply Number_or_0_Normal in H2 as (n & Hn & ->).
  unfold modify in H. injection H as <-.
  eauto.
Qed.

(** What a completed append has done. *)
Lemma append_history_Normal (ts : string) (s risk : value) (w w' : world) :
  append_history ts s risk w = (Normal tt, w') ->
  labels w' = pushLimited (labels w) (Str ts) HISTORY_MAX
  /\ (forall c, exists raw n,
        get s (channel_key c) = Normal raw
        /\ ToNumber (coalesce raw zero) = Normal n
        /\ channel_hist c (sensorsHist w')
           = pushLimited (channel_hist c (sensorsHist w)) (Number n) HISTORY_MAX)
  /\ riskHist w' = pushLimited (riskHist w) risk HISTORY_MAX
  /\ document w' = document w.
Proof.
  unfold append_history. intros H.
  apply bind_Normal in H as ([] & w0 & H0 & H).
  unfold push_label, modify in H0. injection H0 as <-.
  apply bind_Normal in H as ([] & w1 & H1 & H).
  apply push_channel_Normal in H1 as (r1 & n1 & G1 & N1 & ->).
  apply bind_Normal in H as ([] & w2 & H2 & H).
  apply push_channel_Normal in H2 as (r2 & n2 & G2 & N2 & ->).
  apply bind_Normal in H as ([] & w3 & H3 & H).
  apply push_channel_Normal in H3 as (r3 & n3 & G3 & N3 & ->).
  apply bind_Normal in H as ([] & w4 & H4 & H).
  apply push_channel_Normal in H4 as (r4 & n4 & G4 & N4 & ->).
  apply bind_Normal in H as ([] & w5 & H5 & H).
  apply push_channel_Normal in H5 as (r5 & n5 & G5 & N5 & ->).
  apply bind_Normal in H as ([] & w6 & H6 & H).
  apply push_channel_Normal in H6 as (r6 & n6 & G6 & N6 & ->).
  unfold push_risk, modify in H. injection H as <-.
  split; [reflexivity|]. split; [|split; reflexivity].
  intros [].
  - exists r1, n1. auto.
  - exists r2, n2. auto.
  - exists r3, n3. auto.
  - exists r4, n4. auto.
  - exists r5, n5. auto.
  - exists r6, n6. auto.
Qed.

Lemma ingest_Normal (r : response) (now : string) (w w' : world)
      (data s risk dist : value) :
  ingest r now w = (Normal (data, s, risk, dist), w') ->
  r = Json data
  /\ (exists sv, get data "sensors" = Normal sv /\ s = or_else sv (Object []))
  /\ (exists rv n, get data "risk" = Normal rv
                   /\ ToNumber (coalesce rv zero) = Normal n /\ risk = Number n)
  /\ get data "distance_m" = Normal dist
  /\ append_history now s risk (set_requests (requests w ++ [("GET", "/sensor_data")])%list w)
     = (Normal tt, w').
Proof.
  unfold ingest. intros H.
  apply bind_Normal in H as (d & w0 & H0 & H).
  unfold fetch_json in H0.
  apply bind_Normal in H0 as ([] & w00 & H00 & H0).
  unfold request, modify in H00. injection H00 as <-.
  assert (r = Json d /\ w0 = set_requests (requests w ++ [("GET", "/sensor_data")])%list w)
    as [-> ->].
  { destruct r; try discriminate. injection H0 as -> <-. auto. }
  apply bind_Normal in H as (sv & w1 & H1 & H).
  apply lift_Normal in H1 as [H1 ->].
  apply bind_Normal in H as (rv & w2 & H2 & H).
  apply lift_Normal in H2 as [H2 ->].
  apply bind_Normal in H as (rk & w3 & H3 & H).
  apply lift_Normal in H3 as [H3 ->].
  apply Number_or_0_Normal in H3 as (n & Hn & ->).
  apply bind_Normal in H as (dd & w4 & H4 & H).
  apply lift_Normal in H4 as [H4 ->].
  apply bind_Normal in H as ([] & w5 & H5 & H).
  unfold ret in H. injection H as <- <- <- <- <-.
  repeat split; eauto.
Qed.

(** The history a tick leaves is the one its ingestion left. *)
Lemma after_tick_history (r : response) (now : string) (w : world) :
  same_history (snd (ingest r now w)) (after_tick r now w).
Proof.
  unfold after_tick, tick, try_catch, tick_body, bind.
  destruct (ingest r now w) as [[[[[data s] risk] dist]|e] w1]; cbn [snd].
  - pose proof (render_history data s risk dist w1) as Hr.
    destruct (render data s risk dist w1) as [[[]|e] w2]; cbn [snd] in *.
    + exact Hr.
    + eapply same_history_trans; [exact Hr|]. apply console_error_history.
  - apply console_error_history.
Qed.

(** ** The history invariant *)

Lemma aligned_same_history (w w' : world) :
  same_history w w' -> aligned w -> aligned w'.
Proof. unfold same_history, aligned. intros (-> & -> & ->). trivial. Qed.

Lemma ingest_aligned (r : response) (now : string) (w : world) :
  succeeded (fst (ingest r now w)) = true ->
  aligned w -> aligned (snd (ingest r now w)).
Proof.
  destruct (ingest r now w) as [[[[[data s] risk] dist]|e] w'] eqn:E;
    cbn [fst snd succeeded]; [|discriminate].
  intros _ (Hle & Hch & Hrisk).
  apply ingest_Normal in E as (_ & _ & _ & _ & E).
  apply append_history_Normal in E as (Hl & Hc & Hr & _).
  cbn [labels sensorsHist riskHist set_requests] in Hl, Hc, Hr.
  unfold aligned. rewrite Hl, Hr, !pushLimited_history_length.
  split; [lia|]. split; [|lia].
  intros c. destruct (Hc c) as (raw & n & _ & _ & ->).
  rewrite pushLimited_history_length, Hch. reflexivity.
Qed.

Lemma poll_trace_aligned (ticks : list (response * string)) (w : world) :
  aligned w -> all_appended ticks w = true -> Forall aligned (poll_trace ticks w).
Proof.
  revert w. induction ticks as [|[r now] ticks IH]; intros w Hw Hall; cbn.
  - constructor.
  - cbn in Hall. apply andb_true_iff in Hall as [Hok Hall].
    assert (Hw' : aligned (after_tick r now w)).
    { eapply aligned_same_history; [apply after_tick_history|].
      apply ingest_aligned; assumption. }
    constructor; [exact Hw' | apply IH; assumption].
Qed.

(** C2. Along any run of ticks that each complete their appends, started
    from the empty history, after every tick the eight sequences have one
    common length, and it is at most 30. *)
Theorem history_stays_aligned (page : gmap string element)
        (ticks : list (response * string)) :
  all_appended ticks (initial page) = true ->
  Forall aligned (poll_trace ticks (initial page)).
Proof.
  apply poll_trace_aligned. unfold aligned. cbn.
  split; [lia|]. split; [intros []; reflexivity | reflexivity].
Qed.

Lemma history_stays_aligned_witness :
  Forall aligned
    (poll_trace
       [ (Json (Object [("sensors", Object [("temperature_c", Number (of_Z 80))]);
                        ("risk", Number lit_0_5)]), "10:00:00");
         (Json (Object []), "10:00:02") ]
       (initial ∅)).
Proof.
  apply (history_stays_aligned ∅
           [ (Json (Object [("sensors", Object [("temperature_c", Number (of_Z 80))]);
                        ("risk", Number lit_0_5)]), "10:00:00");
             (Json (Object []), "10:00:02") ]).
  vm_compute. reflexivity.
Defined.

(** *** Statements that see the state only through a relation

    [respects S m]: from [S]-related states [m] ends the same way, in
    [S]-related states. *)

Section Respects.
Variable S : world -> world -> Prop.

Lemma respects_ret {A} (a : A) : respects S (ret a).
Proof. intros w1 w2 H. auto. Qed.

Lemma respects_lift {A} (c : completion A) : respects S (lift c).
Proof. intros w1 w2 H. auto. Qed.

Lemma respects_throw {A} (e : error) : respects S (@throw A e).
Proof. intros w1 w2 H. auto. Qed.

Lemma respects_modify (f : world -> world) :
  (forall w1 w2, S w1 w2 -> S (f w1) (f w2)) -> respects S (modify f).
Proof. intros Hf w1 w2 H. split; [reflexivity | apply Hf, H]. Qed.

Lemma respects_bind {A B} (m : M A) (k : A -> M B) :
  respects S m -> (forall a, respects S (k a)) -> respects S (bind m k).
Proof.
  intros Hm Hk w1 w2 H. unfold bind.
  destruct (Hm w1 w2 H) as [Hf Hs].
  destruct (m w1) as [[a1|e1] w1'], (m w2) as [[a2|e2] w2'];
    cbn [fst snd] in *; try discriminate.
  - injection Hf as <-. apply Hk, Hs.
  - injection Hf as <-. split; [reflexivity | exact Hs].
Qed.
End Respects.

Lemma request_respects_history (method url : string) :
  respects same_history (request method url).
Proof. apply respects_modify. intros w1 w2 H. exact H. Qed.

Lemma fetch_json_respects_history (r : response) :
  respects same_history (fetch_json r).
Proof.
  unfold fetch_json. apply respects_bind; [apply request_respects_history|].
  intros _. destruct r; [apply respects_throw | apply respects_throw | apply respects_ret].
Qed.

Lemma push_label_respects_history (ts : string) :
  respects same_history (push_label ts).
Proof.
  apply respects_modify. intros w1 w2 (Hl & Hs & Hr).
  repeat split; cbn; congruence.
Qed.

Lemma push_channel_respects_history (c : channel) (s : value) :
  respects same_history (push_channel c s).
Proof.
  unfold push_channel.
  apply respects_bind; [apply respects_lift|]. intros raw.
  apply respects_bind; [apply respects_lift|]. intros v.
  apply respects_modify. intros w1 w2 (Hl & Hs & Hr).
  repeat split; cbn; congruence.
Qed.

Lemma push_risk_respects_history (risk : value) :
  respects same_history (push_risk risk).
Proof.
  apply respects_modify. intros w1 w2 (Hl & Hs & Hr).
  repeat split; cbn; congruence.
Qed.

Lemma ingest_respects_history (r : response) (now : string) :
  respects same_history (ingest r now).
Proof.
  unfold ingest, append_history.
  repeat first
    [ apply fetch_json_respects_history
    | apply push_label_respects_history
    | apply push_channel_respects_history
    | apply push_risk_respects_history
    | apply respects_lift
    | apply respects_ret
    | apply respects_bind; [ | intros ? ] ].
Qed.

Lemma after_tick_respects_history (r : response) (now : string) (w1 w2 : world) :
  same_history w1 w2 -> same_history (after_tick r now w1) (after_tick r now w2).
Proof.
  intros H.
  destruct (ingest_respects_history r now w1 w2 H) as [_ Hs].
  pose proof (after_tick_history r now w1) as H1.
  pose proof (after_tick_history r now w2) as H2.
  unfold same_history in *. intuition congruence.
Qed.

Lemma poll_respects_history (ticks : list (response * string)) (w1 w2 : world) :
  same_history w1 w2 -> same_history (poll ticks w1) (poll ticks w2).
Proof.
  revert w1 w2. induction ticks as [|[r now] ticks IH]; intros w1 w2 H; cbn.
  - exact H.
  - apply IH, after_tick_respects_history, H.
Qed.

Lemma failed_ingest (r : response) (now : string) (w : world) :
  failed r = true ->
  exists e, ingest r now w
            = (Throw e, set_requests (requests w ++ [("GET", "/sensor_data")])%list w).
Proof.
  destruct r as [e|e|[]]; try discriminate; intros _; eexists; reflexivity.
Qed.

(** C7, as the program has it: a tick whose fetch rejects, whose body does
    not parse or parses to [null] leaves the eight sequences and the page as
    they were, logs the failure, and the ticks after it build the history
    they would have built without it. *)
Theorem failed_tick_leaves_history (r : response) (now : string) (w : world) :
  failed r = true ->
  same_history w (after_tick r now w)
  /\ document (after_tick r now w) = document w
  /\ (exists e, console (after_tick r now w) = (console w ++ [("poll failed", e)])%list)
  /\ forall rest, same_history (poll rest w) (poll ((r, now) :: rest) w).
Proof.
  intros Hf.
  destruct (failed_ingest r now w Hf) as [e He].
  assert (Ha : after_tick r now w
               = set_console (console w ++ [("poll failed", e)])%list
                   (set_requests (requests w ++ [("GET", "/sensor_data")])%list w)).
  { unfold after_tick, tick, try_catch, tick_body, bind. rewrite He. reflexivity. }
  assert (Hs : same_history w (after_tick r now w)) by (rewrite Ha; repeat split).
  split; [exact Hs|]. split; [rewrite Ha; reflexivity|].
  split; [exists e; rewrite Ha; reflexivity|].
  intros rest. cbn. apply poll_respects_history, Hs.
Qed.

Lemma failed_tick_leaves_history_witness :
  same_history (initial ∅) (after_tick (JsonRejected SyntaxError) "10:00:00" (initial ∅)).
Proof.
  apply (failed_tick_leaves_history (JsonRejected SyntaxError) "10:00:00" (initial ∅)).
  reflexivity.
Defined.

(** C7 as stated fails for a body of the wrong shape: an empty object is
    accepted and a sample of zeros is appended. *)
Lemma wrong_shape_is_appended :
  labels (after_tick (Json (Object [])) "10:00:00" (initial ∅)) = [Str "10:00:00"]
  /\ riskHist (after_tick (Json (Object [])) "10:00:00" (initial ∅)) = [zero]
  /\ console (after_tick (Json (Object [])) "10:00:00" (initial ∅)) = [].
Proof. vm_compute. auto. Qed.

(** ** What is stored *)

Lemma pushLimited_last (arr : list value) (v : value) :
  last (pushLimited arr v HISTORY_MAX) = Some v.
Proof.
  rewrite pushLimited_drop.
  rewrite drop_app_le by (unfold HISTORY_MAX; lia).
  apply last_snoc.
Qed.

Lemma coerced_nullish (raw : value) (n : number) :
  ToNumber (coalesce raw zero) = Normal n ->
  (is_nullish raw = true -> n = S754_zero false)
  /\ (forall y, raw = Number y -> n = y).
Proof.
  intros H. split.
  - intros Hn. unfold coalesce in H. rewrite Hn in H. cbn in H. congruence.
  - intros y ->. cbn in H. congruence.
Qed.

(** C4, as the program has it: what a completed append stores for a sensor
    channel or for the risk is the number [Number(x ?? 0)] of the field: 0
    when the field is absent or [null], the field itself when it is a
    number, and otherwise whatever [Number] makes of it. *)
Theorem stored_values_are_coerced (r : response) (now : string) (w w' : world)
        (data s risk dist : value) :
  ingest r now w = (Normal (data, s, risk, dist), w') ->
  (forall c, exists raw n,
      get s (channel_key c) = Normal raw
      /\ ToNumber (coalesce raw zero) = Normal n
      /\ last (channel_hist c (sensorsHist w')) = Some (Number n)
      /\ (is_nullish raw = true -> n = S754_zero false)
      /\ (forall y, raw = Number y -> n = y))
  /\ (exists raw n,
      get data "risk" = Normal raw
      /\ ToNumber (coalesce raw zero) = Normal n
      /\ last (riskHist w') = Some (Number n)
      /\ (is_nullish raw = true -> n = S754_zero false)
      /\ (forall y, raw = Number y -> n = y)).
Proof.
  intros H.
  apply ingest_Normal in H as (_ & _ & (rv & n & Hrv & Hn & ->) & _ & H).
  apply append_history_Normal in H as (_ & Hc & Hr & _).
  split.
  - intros c. destruct (Hc c) as (raw & m & Hg & Hm & ->).
    exists raw, m. destruct (coerced_nullish raw m Hm).
    repeat split; auto using pushLimited_last.
  - exists rv, n. destruct (coerced_nullish rv n Hn).
    rewrite Hr. repeat split; auto using pushLimited_last.
Qed.

Lemma stored_values_are_coerced_witness :
  exists raw n,
    get (Object [("temperature_c", Null)]) (channel_key Temperature) = Normal raw
    /\ ToNumber (coalesce raw zero) = Normal n
    /\ last (channel_hist Temperature
               (sensorsHist
                  (snd (ingest (Json (Object [("sensors", Object [("temperature_c", Null)])]))
                          "10:00:00" (initial ∅)))))
       = Some (Number n)
    /\ (is_nullish raw = true -> n = S754_zero false)
    /\ (forall y, raw = Number y -> n = y).
Proof.
  refine (proj1 (stored_values_are_coerced
            (Json (Object [("sensors", Object [("temperature_c", Null)])]))
            "10:00:00" (initial ∅) _ _ _ _ _ _) Temperature).
  vm_compute. reflexivity.
Defined.

(** C4 as stated fails: a non-numeric string is stored as NaN. *)
Lemma nan_is_stored :
  temperature_c
    (sensorsHist
       (after_tick (Json (Object [("sensors", Object [("temperature_c", Str "abc")])]))
                   "10:00:00" (initial ∅)))
  = [Number S754_nan].
Proof. vm_compute. reflexivity. Qed.

(** ** Writes to the page *)

#[export] Hint Extern 1 (_ <> _) =>
  first [ assumption | apply not_eq_sym; assumption | cbn; congruence ] : frame.

Ltac keeps_auto2 := repeat first [ solve [auto 2 with frame nocore] | keeps_step ].

Lemma update_element_other (id k : string) (f : element -> element) :
  k <> id -> keeps (same_element id) (update_element k f).
Proof.
  intros Hne. apply keeps_modify. intros w. unfold same_element. cbn.
  apply lookup_alter_ne. exact Hne.
Qed.

Lemma setTimeout_element (id : string) (cb : callback) (ms : Z) :
  keeps (same_element id) (setTimeout cb ms).
Proof. apply keeps_modify. intros w. reflexivity. Qed.

Lemma console_error_element (id msg : string) (e : error) :
  keeps (same_element id) (console_error msg e).
Proof. apply keeps_modify. intros w. reflexivity. Qed.

Lemma request_element (id method url : string) :
  keeps (same_element id) (request method url).
Proof. apply keeps_modify. intros w. reflexivity. Qed.

Lemma update_charts_element (id : string) : keeps (same_element id) update_charts.
Proof.
  unfold update_charts. repeat keeps_step; apply keeps_modify; intros w; reflexivity.
Qed.

Lemma push_label_element (id ts : string) : keeps (same_element id) (push_label ts).
Proof. apply keeps_modify. intros w. reflexivity. Qed.

Lemma push_risk_element (id : string) (risk : value) :
  keeps (same_element id) (push_risk risk).
Proof. apply keeps_modify. intros w. reflexivity. Qed.

Lemma push_channel_element (id : string) (c : channel) (s : value) :
  keeps (same_element id) (push_channel c s).
Proof.
  unfold push_channel. repeat keeps_step. apply keeps_modify. intros w. reflexivity.
Qed.

#[export] Hint Resolve update_element_other setTimeout_element console_error_element
  request_element update_charts_element push_label_element push_risk_element
  push_channel_element : frame.

Lemma ingest_element (id : string) (r : response) (now : string) :
  keeps (same_element id) (ingest r now).
Proof.
  unfold ingest, fetch_json, append_history. keeps_auto2.
  destruct r; keeps_auto2.
Qed.

Lemma setKPI_element (id k text : string) :
  k ++ "-value" <> id -> keeps (same_element id) (setKPI k text).
Proof. intros Hne. unfold setKPI. keeps_auto2. Qed.

#[export] Hint Resolve ingest_element setKPI_element : frame.

Lemma update_kpis_element (id : string) (s : value) :
  id ∉ kpi_slots -> keeps (same_element id) (update_kpis s).
Proof.
  intros Hid. unfold kpi_slots in Hid.
  repeat (apply not_elem_of_cons in Hid as [? Hid]).
  unfold update_kpis, show_kpi. keeps_auto2.
Qed.

Lemma update_state_element (id : string) (data : value) :
  id <> "system-state" -> keeps (same_element id) (update_state data).
Proof. intros Hid. unfold update_state. keeps_auto2. Qed.

Lemma update_stress_element (id : string) (data : value) :
  id <> "stress-banner" -> id <> "stress-timer" ->
  keeps (same_element id) (update_stress data).
Proof. intros Hb Ht. unfold update_stress. keeps_auto2. Qed.

Lemma update_recommendation_element (id : string) (s risk dist : value) :
  id <> "recommendation" -> keeps (same_element id) (update_recommendation s risk dist).
Proof. intros Hid. unfold update_recommendation. keeps_auto2. Qed.

Lemma update_state_run (data st : value) (text : string) (el : element) (w : world) :
  document w !! "system-state" = Some el ->
  get data "system_state" = Normal st ->
  ToString (or_else st (Str "RUNNING")) = Normal text ->
  exists w', update_state data w = (Normal tt, w')
             /\ document w' !! "system-state" = Some (shown_state st text el).
Proof.
  intros Hel Hst Htext.
  unfold update_state, bind, getElementById, lift, update_element, modify, setTimeout.
  rewrite Hel, Hst, Htext.
  eexists; split; [reflexivity|].
  cbn [document set_document set_timeouts].
  rewrite !lookup_alter_eq, Hel. reflexivity.
Qed.

Lemma update_state_Normal (data : value) (el : element) (w w' : world) :
  document w !! "system-state" = Some el ->
  update_state data w = (Normal tt, w') ->
  exists st text,
    get data "system_state" = Normal st
    /\ ToString (or_else st (Str "RUNNING")) = Normal text
    /\ document w' !! "system-state" = Some (shown_state st text el).
Proof.
  intros Hel H.
  destruct (get data "system_state") as [st|] eqn:Hst.
  - destruct (ToString (or_else st (Str "RUNNING"))) as [text|] eqn:Htext.
    + destruct (update_state_run data st text el w Hel Hst Htext) as (w2 & Hrun & Hdoc).
      rewrite Hrun in H. injection H as <-. eauto.
    + unfold update_state, bind, getElementById, lift in H.
      rewrite Hel, Hst, Htext in H. discriminate.
  - unfold update_state, bind, getElementById, lift in H.
    rewrite Hel, Hst in H. discriminate.
Qed.

Lemma keeps_run {A} (R : world -> world -> Prop) (m : M A) (w w' : world) (c : completion A) :
  keeps R m -> m w = (c, w') -> R w w'.
Proof. intros Hk H. specialize (Hk w). rewrite H in Hk. exact Hk. Qed.

(** The steps of a tick that ran to completion. *)
Lemma tick_body_Normal (r : response) (now : string) (w w' : world) :
  tick_body r now w = (Normal tt, w') ->
  exists data s risk dist w1 w2 w3 w4 w5,
    ingest r now w = (Normal (data, s, risk, dist), w1)
    /\ update_charts w1 = (Normal tt, w2)
    /\ update_kpis s w2 = (Normal tt, w3)
    /\ update_state data w3 = (Normal tt, w4)
    /\ update_stress data w4 = (Normal tt, w5)
    /\ update_recommendation s risk dist w5 = (Normal tt, w').
Proof.
  unfold tick_body. intros H.
  apply bind_Normal in H as ([[[data s] risk] dist] & w1 & H1 & H).
  unfold render in H.
  apply bind_Normal in H as ([] & w2 & H2 & H).
  apply bind_Normal in H as ([] & w3 & H3 & H).
  apply bind_Normal in H as ([] & w4 & H4 & H).
  apply bind_Normal in H as ([] & w5 & H5 & H).
  exists data, s, risk, dist, w1, w2, w3, w4, w5. repeat split; assumption.
Qed.

Lemma after_tick_Normal (r : response) (now : string) (w w' : world) :
  tick_body r now w = (Normal tt, w') -> after_tick r now w = w'.
Proof. intros H. unfold after_tick, tick, try_catch. rewrite H. reflexivity. Qed.

Lemma not_in_kpi_slots (id : string) :
  id = "system-state" \/ id = "stress-banner" \/ id = "stress-timer"
  \/ id = "recommendation" ->
  id ∉ kpi_slots.
Proof.
  intros H. unfold kpi_slots. rewrite !not_elem_of_cons.
  destruct H as [->|[->|[->| ->]]]; repeat split; try discriminate; apply not_elem_of_nil.
Qed.

(** C10. When [system_state] is absent, [null] or the empty string, a tick
    that runs to completion over a page with a state slot leaves the text
    [RUNNING] in it and neither the [status-running] nor the
    [status-stopped] class on it. *)
Theorem missing_state_shown_as_running (data st : value) (now : string)
        (el : element) (w w' : world) :
  document w !! "system-state" = Some el ->
  get data "system_state" = Normal st ->
  st = Undefined \/ st = Null \/ st = Str "" ->
  tick_body (Json data) now w = (Normal tt, w') ->
  exists el',
    (document (after_tick (Json data) now w)) !! "system-state" = Some el'
    /\ el_content el' = Text "RUNNING"
    /\ ("status-running" ∉ classList el')
    /\ ("status-stopped" ∉ classList el').
Proof.
  intros Hel Hst Hfalsy H.
  rewrite (after_tick_Normal _ _ _ _ H).
  apply tick_body_Normal in H
    as (data' & s & risk & dist & w1 & w2 & w3 & w4 & w5 & H1 & H2 & H3 & H4 & H5 & H6).
  pose proof (ingest_Normal _ _ _ _ _ _ _ _ H1) as (Hd & _). injection Hd as <-.
  pose proof (keeps_run _ _ _ _ _ (ingest_element "system-state" _ _) H1) as F1.
  pose proof (keeps_run _ _ _ _ _ (update_charts_element "system-state") H2) as F2.
  pose proof (keeps_run _ _ _ _ _
                (update_kpis_element "system-state" s
                   (not_in_kpi_slots _ (or_introl eq_refl))) H3) as F3.
  assert (Hel3 : document w3 !! "system-state" = Some el).
  { unfold same_element in *. congruence. }
  destruct (update_state_Normal _ _ _ _ Hel3 H4) as (st' & text & Hst' & Htext & Hdoc).
  assert (st' = st) as -> by congruence.
  assert (text = "RUNNING") as ->.
  { destruct Hfalsy as [->|[->| ->]]; cbn in Htext; congruence. }
  pose proof (keeps_run _ _ _ _ _
                (update_stress_element "system-state" data
                   ltac:(discriminate) ltac:(discriminate)) H5) as F5.
  pose proof (keeps_run _ _ _ _ _
                (update_recommendation_element "system-state" s risk dist
                   ltac:(discriminate)) H6) as F6.
  exists (shown_state st "RUNNING" el).
  split; [unfold same_element in *; congruence|].
  split; [reflexivity|].
  assert (Hr : strict_eq_str st "RUNNING" = false)
    by (destruct Hfalsy as [->|[->| ->]]; reflexivity).
  assert (Hs : strict_eq_str st "STOPPED" = false)
    by (destruct Hfalsy as [->|[->| ->]]; reflexivity).
  cbn [shown_state classList]. rewrite Hr, Hs. unfold class_toggle, class_remove.
  split; intros Hin.
  - apply list_elem_of_filter in Hin as [_ Hin].
    apply list_elem_of_filter in Hin as [Hne _]. congruence.
  - apply list_elem_of_filter in Hin as [Hne _]. congruence.
Qed.

Lemma missing_state_shown_as_running_witness :
  exists el',
    (document
       (after_tick (Json (Object [("system_state", Str "")])) "10:00:00"
          (initial {[ "system-state" :=
                        {| el_content := Text ""; classList := ["status-stopped"];
                           transform := "" |} ]})))
    !! "system-state" = Some el'
    /\ el_content el' = Text "RUNNING"
    /\ ("status-running" ∉ classList el')
    /\ ("status-stopped" ∉ classList el').
Proof.
  eapply (missing_state_shown_as_running
            (Object [("system_state", Str "")]) (Str "") "10:00:00").
  - vm_compute. reflexivity.
  - reflexivity.
  - auto.
  - vm_compute. reflexivity.
Defined.

Lemma update_stress_Normal (data : value) (banner timer : element) (w w' : world) :
  document w !! "stress-banner" = Some banner ->
  document w !! "stress-timer" = Some timer ->
  update_stress data w = (Normal tt, w') ->
  exists sv active,
    get data "stress" = Normal sv
    /\ get (or_else sv default_stress) "active" = Normal active
    /\ if ToBoolean active then
         exists left text,
           get (or_else sv default_stress) "seconds_left" = Normal left
           /\ ToString left = Normal text
           /\ document w' !! "stress-banner" = Some (shown_banner banner)
           /\ document w' !! "stress-timer" = Some (set_textContent text timer)
       else
         document w' !! "stress-banner" = Some (hidden_banner banner)
         /\ document w' !! "stress-timer" = Some timer.
Proof.
  intros Hb Ht H.
  unfold update_stress, bind, getElementById, lift, update_element, modify in H.
  destruct (get data "stress") as [sv|] eqn:Hsv; [|discriminate].
  rewrite Hb, Ht in H.
  destruct (get (or_else sv default_stress) "active") as [active|] eqn:Ha; [|discriminate].
  exists sv, active.
  split; [first [reflexivity | exact Hsv]|]. split; [first [reflexivity | exact Ha]|].
  destruct (ToBoolean active).
  - destruct (get (or_else sv default_stress) "seconds_left") as [left|] eqn:Hl;
      [|discriminate].
    destruct (ToString left) as [text|] eqn:Htext; [|discriminate].
    injection H as <-. exists left, text.
    split; [first [reflexivity | exact Hl]|].
    split; [first [reflexivity | exact Htext]|].
    cbn [document set_document]. split.
    + rewrite lookup_alter_ne by discriminate. rewrite lookup_alter_eq, Hb. reflexivity.
    + rewrite lookup_alter_eq, lookup_alter_ne by discriminate. rewrite Ht. reflexivity.
  - injection H as <-. cbn [document set_document]. split.
    + rewrite lookup_alter_eq, Hb. reflexivity.
    + rewrite lookup_alter_ne by discriminate. exact Ht.
Qed.

Lemma class_remove_absent (tok : string) (l : list string) : tok ∉ class_remove tok l.
Proof.
  unfold class_remove. intros Hin. apply list_elem_of_filter in Hin as [Hne _]. congruence.
Qed.

Lemma class_add_present (tok : string) (l : list string) : tok ∈ class_add tok l.
Proof.
  unfold class_add. destruct (decide (tok ∈ l)); [assumption|].
  apply elem_of_app. right. apply list_elem_of_singleton. reflexivity.
Qed.

(** C8. In a tick that runs to completion over a page with the banner and
    countdown slots: when [stress.active] holds the banner loses [d-none]
    and the countdown text becomes [String(stress.seconds_left)]; when it
    does not hold the banner gets [d-none] and the countdown is untouched. *)
Theorem stress_banner_follows_frame (data : value) (now : string)
        (banner timer : element) (w w' : world) :
  document w !! "stress-banner" = Some banner ->
  document w !! "stress-timer" = Some timer ->
  tick_body (Json data) now w = (Normal tt, w') ->
  exists sv active,
    get data "stress" = Normal sv
    /\ get (or_else sv default_stress) "active" = Normal active
    /\ (ToBoolean active = true ->
        exists left text,
          get (or_else sv default_stress) "seconds_left" = Normal left
          /\ ToString left = Normal text
          /\ (document (after_tick (Json data) now w)) !! "stress-banner"
             = Some (shown_banner banner)
          /\ ("d-none" ∉ classList (shown_banner banner))
          /\ (document (after_tick (Json data) now w)) !! "stress-timer"
             = Some (set_textContent text timer))
    /\ (ToBoolean active = false ->
        (document (after_tick (Json data) now w)) !! "stress-banner"
        = Some (hidden_banner banner)
        /\ ("d-none" ∈ classList (hidden_banner banner))
        /\ (document (after_tick (Json data) now w)) !! "stress-timer" = Some timer).
Proof.
  intros Hb Ht H.
  rewrite (after_tick_Normal _ _ _ _ H).
  apply tick_body_Normal in H
    as (data' & s & risk & dist & w1 & w2 & w3 & w4 & w5 & H1 & H2 & H3 & H4 & H5 & H6).
  pose proof (ingest_Normal _ _ _ _ _ _ _ _ H1) as (Hd & _). injection Hd as <-.
  assert (Pre : forall id, id = "stress-banner" \/ id = "stress-timer" ->
                           document w4 !! id = document w !! id).
  { intros id Hid.
    pose proof (keeps_run _ _ _ _ _ (ingest_element id _ _) H1) as F1.
    pose proof (keeps_run _ _ _ _ _ (update_charts_element id) H2) as F2.
    pose proof (keeps_run _ _ _ _ _
                  (update_kpis_element id s
                     (not_in_kpi_slots id ltac:(tauto))) H3) as F3.
    pose proof (keeps_run _ _ _ _ _
                  (update_state_element id data
                     ltac:(destruct Hid as [-> | ->]; discriminate)) H4) as F4.
    unfold same_element in *. congruence. }
  assert (Post : forall id, id = "stress-banner" \/ id = "stress-timer" ->
                            document w' !! id = document w5 !! id).
  { intros id Hid.
    exact (keeps_run _ _ _ _ _
             (update_recommendation_element id s risk dist
                ltac:(destruct Hid as [-> | ->]; discriminate)) H6). }
  assert (Hb4 : document w4 !! "stress-banner" = Some banner)
    by (rewrite Pre by auto; exact Hb).
  assert (Ht4 : document w4 !! "stress-timer" = Some timer)
    by (rewrite Pre by auto; exact Ht).
  destruct (update_stress_Normal _ _ _ _ _ Hb4 Ht4 H5) as (sv & active & Hsv & Ha & Hres).
  exists sv, active. split; [exact Hsv|]. split; [exact Ha|].
  split; intros Hact; rewrite Hact in Hres.
  - destruct Hres as (left & text & Hl & Htext & Hbn & Htm).
    exists left, text. rewrite !Post by auto.
    repeat split; auto. apply class_remove_absent.
  - destruct Hres as (Hbn & Htm). rewrite !Post by auto.
    repeat split; auto. apply class_add_present.
Qed.

Lemma stress_banner_follows_frame_witness :
  (document (after_tick (Json demo_stress_frame) "10:00:00" (initial demo_page)))
  !! "stress-timer"
  = Some {| el_content := Text "12"; classList := []; transform := "" |}.
Proof.
  assert (Hb : document (initial demo_page) !! "stress-banner" = Some demo_banner)
    by (vm_compute; reflexivity).
  assert (Ht : document (initial demo_page) !! "stress-timer" = Some demo_timer)
    by (vm_compute; reflexivity).
  assert (Hrun : tick_body (Json demo_stress_frame) "10:00:00" (initial demo_page)
                 = (Normal tt,
                    snd (tick_body (Json demo_stress_frame) "10:00:00" (initial demo_page))))
    by (vm_compute; reflexivity).
  destruct (stress_banner_follows_frame demo_stress_frame "10:00:00"
              demo_banner demo_timer (initial demo_page) _ Hb Ht Hrun)
    as (sv & active & Hsv & Ha & Hon & _).
  vm_compute in Hsv. injection Hsv as <-.
  vm_compute in Ha. injection Ha as <-.
  destruct (Hon eq_refl) as (left & text & Hl & Htext & _ & _ & Htm).
  vm_compute in Hl. injection Hl as <-.
  vm_compute in Htext. injection Htext as <-.
  exact Htm.
Defined.

(** ** Missing slots *)

Section Follows.
Variable S : world -> world -> Prop.

Lemma follows_ret {A} (a : A) : follows S (ret a).
Proof. intros w1 w2 H b w2' [= <- <-]. eauto. Qed.

Lemma follows_lift {A} (c : completion A) : follows S (lift c).
Proof. intros w1 w2 H b w2' [= -> <-]. eauto. Qed.

Lemma follows_modify (f : world -> world) :
  (forall w1 w2, S w1 w2 -> S (f w1) (f w2)) -> follows S (modify f).
Proof. intros Hf w1 w2 H b w2' [= <- <-]. eauto. Qed.

Lemma follows_bind {A B} (m : M A) (k : A -> M B) :
  follows S m -> (forall a, follows S (k a)) -> follows S (bind m k).
Proof.
  intros Hm Hk w1 w2 H b w2' Hrun.
  apply bind_Normal in Hrun as (a & w2m & Hm2 & Hk2).
  destruct (Hm w1 w2 H a w2m Hm2) as (w1m & Hm1 & Hmid).
  destruct (Hk a w1m w2m Hmid b w2' Hk2) as (w1' & Hk1 & Hend).
  exists w1'. split; [|exact Hend].
  unfold bind. rewrite Hm1. exact Hk1.
Qed.
End Follows.

Lemma follows_getElementById (id k : string) :
  k <> id -> follows (page_less id) (getElementById k).
Proof.
  intros Hne w1 w2 H el w2' [= <- <-]. exists w1. split; [|exact H].
  unfold getElementById. unfold page_less in H. rewrite H.
  rewrite lookup_delete_ne by congruence. reflexivity.
Qed.

Lemma follows_update_element (id k : string) (f : element -> element) :
  k <> id -> follows (page_less id) (update_element k f).
Proof.
  intros Hne. apply follows_modify. unfold page_less. intros w1 w2 H. cbn.
  rewrite H. apply alter_delete_ne. exact Hne.
Qed.

Lemma follows_off_page (id : string) (f : world -> world) :
  (forall w, document (f w) = document w) -> follows (page_less id) (modify f).
Proof.
  intros Hf. apply follows_modify. unfold page_less. intros w1 w2 H.
  rewrite !Hf. exact H.
Qed.

(** A step that does nothing without its slot and writes nowhere else
    follows the page with that slot removed. *)
Lemma follows_own_slot (id : string) (m : M unit) :
  (forall w, document w !! id = None -> m w = (Normal tt, w)) ->
  (forall j, j <> id -> keeps (same_element j) m) ->
  follows (page_less id) m.
Proof.
  intros Hnone Hother w1 w2 H [] w2' Hrun.
  exists w1. split.
  - apply Hnone. unfold page_less in H. rewrite H. apply lookup_delete_eq.
  - unfold page_less in *. rewrite H. apply map_eq. intros j.
    destruct (decide (j = id)) as [->|Hne].
    + rewrite !lookup_delete_eq. reflexivity.
    + rewrite !lookup_delete_ne by congruence.
      symmetry. exact (keeps_run _ _ _ _ _ (Hother j Hne) Hrun).
Qed.

Ltac follows_step :=
  first
    [ apply follows_ret
    | apply follows_lift
    | apply follows_getElementById; solve [auto 1 with frame nocore]
    | apply follows_update_element; solve [auto 1 with frame nocore]
    | apply follows_off_page; intros ?; reflexivity
    | apply follows_bind; [ | intros ? ]
    | match goal with |- follows _ (match ?o with Some _ => _ | None => _ end) =>
        destruct o end
    | match goal with |- follows _ (if ?b then _ else _) => destruct b end
    | match goal with |- follows _ (match ?r with FetchRejected _ => _ | _ => _ end) =>
        destruct r end ].

Lemma follows_throw (S : world -> world -> Prop) {A} (e : error) :
  follows S (@throw A e).
Proof. intros w1 w2 H a w2' Hrun. discriminate. Qed.

Lemma ingest_follows (id : string) (r : response) (now : string) :
  follows (page_less id) (ingest r now).
Proof.
  unfold ingest, fetch_json, request, append_history, push_label, push_channel, push_risk.
  repeat first [ follows_step | apply follows_throw ].
Qed.

Lemma update_charts_follows (id : string) : follows (page_less id) update_charts.
Proof. unfold update_charts. repeat follows_step. Qed.

Lemma setKPI_follows (id k text : string) : follows (page_less id) (setKPI k text).
Proof.
  destruct (decide (k ++ "-value" = id)) as [<-|Hne].
  - apply follows_own_slot.
    + intros w Hw. unfold setKPI, bind, getElementById. rewrite Hw. reflexivity.
    + intros j Hj. apply setKPI_element. congruence.
  - unfold setKPI. repeat follows_step.
Qed.

Lemma update_kpis_follows (id : string) (s : value) :
  follows (page_less id) (update_kpis s).
Proof.
  unfold update_kpis, show_kpi.
  repeat first [ apply setKPI_follows | follows_step ].
Qed.

Lemma update_state_follows (id : string) (data : value) :
  follows (page_less id) (update_state data).
Proof.
  destruct (decide ("system-state" = id)) as [<-|Hne].
  - apply follows_own_slot.
    + intros w Hw. unfold update_state, bind, getElementById. rewrite Hw. reflexivity.
    + intros j Hj. apply update_state_element. exact Hj.
  - unfold update_state, setTimeout. repeat follows_step.
Qed.

Lemma update_recommendation_follows (id : string) (s risk dist : value) :
  follows (page_less id) (update_recommendation s risk dist).
Proof.
  destruct (decide ("recommendation" = id)) as [<-|Hne].
  - apply follows_own_slot.
    + intros w Hw. unfold update_recommendation, bind, getElementById.
      rewrite Hw. reflexivity.
    + intros j Hj. apply update_recommendation_element. exact Hj.
  - unfold update_recommendation. repeat follows_step.
Qed.

Lemma update_stress_follows (id : string) (data : value) :
  id <> "stress-banner" -> id <> "stress-timer" ->
  follows (page_less id) (update_stress data).
Proof. intros Hb Ht. unfold update_stress. repeat follows_step. Qed.

Lemma tick_body_follows (id : string) (r : response) (now : string) :
  id <> "stress-banner" -> id <> "stress-timer" ->
  follows (page_less id) (tick_body r now).
Proof.
  intros Hb Ht. unfold tick_body, render.
  apply follows_bind; [apply ingest_follows|].
  intros [[[data s] risk] dist].
  repeat first
    [ apply update_charts_follows | apply update_kpis_follows
    | apply update_state_follows | apply update_recommendation_follows
    | apply update_stress_follows; assumption
    | apply follows_bind; [ | intros ? ] ].
Qed.

Lemma stress_pair_kept_refl (w : world) : stress_pair_kept w w.
Proof. intros _. split; reflexivity. Qed.

Lemma stress_pair_kept_trans (a b c : world) :
  stress_pair_kept a b -> stress_pair_kept b c -> stress_pair_kept a c.
Proof.
  unfold stress_pair_kept, same_element. intros Hab Hbc Ha.
  destruct (Hab Ha) as [Eb Et].
  assert (Hb : document b !! "stress-banner" = None \/ document b !! "stress-timer" = None)
    by (rewrite Eb, Et; exact Ha).
  destruct (Hbc Hb) as [Eb' Et']. split; congruence.
Qed.

Lemma stress_pair_kept_of_same {A} (m : M A) :
  keeps (same_element "stress-banner") m ->
  keeps (same_element "stress-timer") m ->
  keeps stress_pair_kept m.
Proof. intros Hb Ht w _. split; [apply Hb | apply Ht]. Qed.

Lemma update_stress_pair (data : value) : keeps stress_pair_kept (update_stress data).
Proof.
  intros w Hw. unfold update_stress, bind, getElementById, lift.
  destruct (get data "stress"); cbn [snd]; [|split; reflexivity].
  destruct Hw as [-> | Hw].
  - split; reflexivity.
  - rewrite Hw. destruct (document w !! "stress-banner"); split; reflexivity.
Qed.

Lemma tick_stress_pair (r : response) (now : string) :
  keeps stress_pair_kept (tick r now).
Proof.
  unfold tick, tick_body, render.
  apply keeps_try_catch; [exact stress_pair_kept_trans| |].
  - apply keeps_bind; [exact stress_pair_kept_trans| |].
    + apply stress_pair_kept_of_same; apply ingest_element.
    + intros [[[data s] risk] dist].
      apply keeps_bind; [exact stress_pair_kept_trans| |intros _].
      { apply stress_pair_kept_of_same; apply update_charts_element. }
      apply keeps_bind; [exact stress_pair_kept_trans| |intros _].
      { apply stress_pair_kept_of_same; apply update_kpis_element;
          apply not_in_kpi_slots; tauto. }
      apply keeps_bind; [exact stress_pair_kept_trans| |intros _].
      { apply stress_pair_kept_of_same; apply update_state_element; discriminate. }
      apply keeps_bind; [exact stress_pair_kept_trans| |intros _].
      { apply update_stress_pair. }
      apply stress_pair_kept_of_same; apply update_recommendation_element; discriminate.
  - intros e. apply stress_pair_kept_of_same; apply console_error_element.
Qed.

(** C9, as the program has it. For a tick that runs to completion: taking
    any slot other than the banner and the countdown off the page changes
    nothing but that the slot is not written (the tick still completes and
    every other slot gets what it got). The banner and the countdown are
    written as a pair: when either is missing, neither is touched. *)
Theorem slots_degrade_independently (r : response) (now : string) (w w' : world) :
  (forall id, id <> "stress-banner" -> id <> "stress-timer" ->
     tick_body r now w = (Normal tt, w') ->
     fst (tick_body r now (without id w)) = Normal tt
     /\ document (after_tick r now (without id w))
        = delete id (document (after_tick r now w)))
  /\ (document w !! "stress-banner" = None \/ document w !! "stress-timer" = None ->
      (document (after_tick r now w)) !! "stress-banner" = document w !! "stress-banner"
      /\ (document (after_tick r now w)) !! "stress-timer" = document w !! "stress-timer").
Proof.
  split.
  - intros id Hb Ht Hrun.
    destruct (tick_body_follows id r now Hb Ht (without id w) w eq_refl tt w' Hrun)
      as (w1' & Hrun1 & Hless).
    rewrite (after_tick_Normal _ _ _ _ Hrun), (after_tick_Normal _ _ _ _ Hrun1), Hrun1.
    split; [reflexivity | exact Hless].
  - intros Hmiss. exact (tick_stress_pair r now w Hmiss).
Qed.

Lemma slots_degrade_independently_witness :
  document (after_tick (Json demo_stress_frame) "10:00:00"
              (without "system-state" (initial demo_full_page)))
  = delete "system-state"
      (document (after_tick (Json demo_stress_frame) "10:00:00" (initial demo_full_page))).
Proof.
  refine (proj2 (proj1 (slots_degrade_independently (Json demo_stress_frame) "10:00:00"
                          (initial demo_full_page)
                          (snd (tick_body (Json demo_stress_frame) "10:00:00"
                                  (initial demo_full_page))))
                   "system-state" _ _ _)).
  - discriminate.
  - discriminate.
  - vm_compute. reflexivity.
Defined.

(** C9 as stated fails for the countdown slot: without it the banner,
    which is present, is not made visible. *)
Lemma missing_timer_blocks_banner :
  (document (after_tick (Json demo_stress_frame) "10:00:00"
               (without "stress-timer" (initial demo_page)))) !! "stress-banner"
  = Some demo_banner
  /\ (delete "stress-timer"
        (document (after_tick (Json demo_stress_frame) "10:00:00" (initial demo_page))))
     !! "stress-banner"
     = Some (shown_banner demo_banner)
  /\ demo_banner <> shown_banner demo_banner.
Proof.
  split; [vm_compute; reflexivity|].
  split; [vm_compute; reflexivity|].
  vm_compute. discriminate.
Qed.

(** * Further properties of the script *)

(** ** [pushLimited] *)

(** X1. For any limit, [pushLimited] leaves a suffix of the array with the
    new value appended, of length [min (length + 1) max]: nothing when the
    limit is zero or negative, and an over-long array is cut down to the
    limit in one push. *)
Theorem pushLimited_suffix (arr : list value) (v : value) (max : Z) :
  pushLimited arr v max `suffix_of` (arr ++ [v])%list
  /\ length (pushLimited arr v max) = Nat.min (length arr + 1) (Z.to_nat max).
Proof.
  rewrite pushLimited_drop. split.
  - apply suffix_drop.
  - rewrite length_drop, length_app. cbn [length]. lia.
Qed.

(** ** [recommend] *)

(** X2. Whatever it is given, [recommend] either throws or returns one of
    its five messages. *)
Theorem recommend_message_range (s risk d : value) (m : string) :
  recommend s risk d = Normal m ->
  m ∈ [MSG_MARKER; MSG_CRITICAL; MSG_REDUCE; MSG_MAINTAIN; MSG_SAFE].
Proof.
  unfold recommend, value_ge, value_gt.
  destruct (loose_eq_null d); [intros [= <-]; set_solver|].
  destruct (ToNumber risk) as [r|]; cbn [cbind]; [|discriminate].
  destruct (Num.ge r lit_0_7); [intros [= <-]; set_solver|].
  destruct (Num.ge r lit_0_5); [|intros [= <-]; set_solver].
  destruct (get s "temperature_c") as [t|]; cbn [cbind]; [|discriminate].
  destruct (ToNumber t) as [tn|]; cbn [cbind]; [|discriminate].
  destruct (Num.gt tn lit_75); [intros [= <-]; set_solver|].
  destruct (get s "pressure_bar") as [p|]; cbn [cbind]; [|discriminate].
  destruct (ToNumber p) as [pn|]; cbn [cbind]; [|discriminate].
  destruct (Num.gt pn lit_4_0); intros [= <-]; set_solver.
Qed.

Lemma recommend_message_range_witness :
  MSG_SAFE ∈ [MSG_MARKER; MSG_CRITICAL; MSG_REDUCE; MSG_MAINTAIN; MSG_SAFE].
Proof.
  apply (recommend_message_range (Object []) (Number (of_decimal false 49 (-2)))
           (Number (of_Z 1)) MSG_SAFE).
  vm_compute. reflexivity.
Defined.

(** X3. A risk that converts to NaN is reported as safe: with a distance
    present, the message is the nominal one whatever the sensors say. *)
Theorem recommend_nan_risk_is_safe (s risk d : value) :
  loose_eq_null d = false ->
  ToNumber risk = Normal S754_nan ->
  recommend s risk d = Normal MSG_SAFE.
Proof.
  intros Hd Hr. unfold recommend, value_ge. rewrite Hd, Hr. reflexivity.
Qed.

Lemma recommend_nan_risk_is_safe_witness :
  recommend (Object [("temperature_c", Number (of_Z 500))]) (Str "high") (Number (of_Z 1))
  = Normal MSG_SAFE.
Proof.
  apply (recommend_nan_risk_is_safe
           (Object [("temperature_c", Number (of_Z 500))]) (Str "high") (Number (of_Z 1)));
    vm_compute; reflexivity.
Defined.

(** X4. The sensors are read only in the warning band: at or above 0.7 and
    below 0.5 the message does not depend on them (they may even be
    [null]); inside the band a [null] or [undefined] sensors argument makes
    the call throw. *)
Theorem recommend_reads_sensors_in_band_only (s risk d : value) (r : number) :
  loose_eq_null d = false ->
  ToNumber risk = Normal r ->
  (Num.ge r lit_0_7 = true -> recommend s risk d = Normal MSG_CRITICAL)
  /\ (Num.ge r lit_0_5 = false -> recommend s risk d = Normal MSG_SAFE)
  /\ (Num.ge r lit_0_7 = false -> Num.ge r lit_0_5 = true -> is_nullish s = true ->
      recommend s risk d = Throw TypeError).
Proof.
  intros Hd Hr. unfold recommend, value_ge. rewrite Hd, Hr. cbn [cbind].
  repeat split.
  - intros ->. reflexivity.
  - intros H5.
    destruct (Num.ge r lit_0_7) eqn:H7; [|rewrite H5; reflexivity].
    exfalso. revert H7 H5. unfold Num.ge, lessThan, lit_0_7, lit_0_5, SFcompare.
    destruct r as [sg|sg| |sg m e]; try (destruct sg); try congruence.
    destruct (Z.compare e (-53)); try congruence.
    destruct (Pos.compare_cont Eq m 4503599627370496) eqn:E; try congruence.
    rewrite (compare_cont_lt_trans m 4503599627370496 6305039478318694 (eq_refl Lt) E).
    congruence.
  - intros -> -> Hs. destruct s; try discriminate; reflexivity.
Qed.

Lemma recommend_reads_sensors_in_band_only_witness :
  recommend Null (Number (of_decimal false 9 (-1))) (Number (of_Z 1)) = Normal MSG_CRITICAL.
Proof.
  refine (proj1 (recommend_reads_sensors_in_band_only Null
                   (Number (of_decimal false 9 (-1))) (Number (of_Z 1))
                   (of_decimal false 9 (-1)) _ _) _);
    vm_compute; reflexivity.
Defined.

(** ** KPI cards *)





(** ** Stress controls *)

Lemma try_catch_total (body : M unit) (h : error -> M unit) (w : world) :
  (forall e w0, fst (h e w0) = Normal tt) -> fst (try_catch body h w) = Normal tt.
Proof.
  intros Hh. unfold try_catch. destruct (body w) as [[[]|e] w1]; [reflexivity | apply Hh].
Qed.

Lemma request_document (method url : string) (w : world) :
  document (snd (request method url w)) = document w.
Proof. reflexivity. Qed.

Lemma triggerStress_history (seconds intensity : value) (outcome : option error) :
  keeps same_history (triggerStress seconds intensity outcome).
Proof. unfold triggerStress. keeps_auto. Qed.

Lemma stopStress_history (outcome : option error) :
  keeps same_history (stopStress outcome).
Proof. unfold stopStress. keeps_auto. Qed.

Lemma triggerStress_element (id : string) (seconds intensity : value)
      (outcome : option error) :
  keeps (same_element id) (triggerStress seconds intensity outcome).
Proof. unfold triggerStress. keeps_auto2. Qed.

Lemma stopStress_element (id : string) (outcome : option error) :
  keeps (same_element id) (stopStress outcome).
Proof. unfold stopStress. keeps_auto2. Qed.

(** X6. The stress controls are fire-and-forget: whatever their arguments
    and however the request ends, they return normally and leave the
    history arrays and every element of the page as they were. *)
Theorem stress_controls_fire_and_forget (h : handler) (outcome : option error) (w : world) :
  fst (run_handler h outcome w) = Normal tt
  /\ same_history w (snd (run_handler h outcome w))
  /\ forall id, (document (snd (run_handler h outcome w))) !! id = document w !! id.
Proof.
  destruct h as [seconds intensity|]; cbn [run_handler].
  - split; [|split].
    + apply try_catch_total. reflexivity.
    + apply triggerStress_history.
    + intros id. apply triggerStress_element.
  - split; [|split].
    + apply try_catch_total. reflexivity.
    + apply stopStress_history.
    + intros id. apply stopStress_element.
Qed.

Lemma triggerStress_run (seconds intensity : value) (s i : string)
      (outcome : option error) (w : world) :
  ToString (default_arg seconds (Number (of_Z 30))) = Normal s ->
  ToString (default_arg intensity (Number (of_decimal false 9 (-1)))) = Normal i ->
  requests (snd (triggerStress seconds intensity outcome w))
  = (requests w
     ++ [("POST", ("/stress/start?seconds=" ++ s ++ "&intensity=" ++ i)%string)])%list
  /\ console (snd (triggerStress seconds intensity outcome w))
     = (console w ++ match outcome with
                     | Some e => [("stress start failed", e)]
                     | None => []
                     end)%list.
Proof.
  intros Hs Hi.
  unfold triggerStress, try_catch, bind, lift, request, modify, throw, ret, console_error.
  rewrite Hs, Hi. split.
  - destruct outcome; reflexivity.
  - destruct outcome; cbn [snd console set_console set_requests].
    + reflexivity.
    + rewrite app_nil_r. reflexivity.
Qed.

(** X7. A start request carries the two parameters in its query string,
    with 30 and 0.9 standing in for omitted ones; a rejected request is
    logged and nothing else happens. *)
Theorem triggerStress_request (seconds intensity : value) (s i : string)
        (outcome : option error) (w : world) :
  ToString (default_arg seconds (Number (of_Z 30))) = Normal s ->
  ToString (default_arg intensity (Number (of_decimal false 9 (-1)))) = Normal i ->
  requests (snd (triggerStress seconds intensity outcome w))
  = (requests w
     ++ [("POST", ("/stress/start?seconds=" ++ s ++ "&intensity=" ++ i)%string)])%list
  /\ console (snd (triggerStress seconds intensity outcome w))
     = (console w ++ match outcome with
                     | Some e => [("stress start failed", e)]
                     | None => []
                     end)%list
  /\ ToString (default_arg Undefined (Number (of_Z 30))) = Normal "30"
  /\ ToString (default_arg Undefined (Number (of_decimal false 9 (-1)))) = Normal "0.9".
Proof.
  intros Hs Hi.
  destruct (triggerStress_run seconds intensity s i outcome w Hs Hi) as [Hr Hc].
  split; [exact Hr|]. split; [exact Hc|].
  split; vm_compute; reflexivity.
Qed.

Lemma triggerStress_request_witness :
  requests (snd (triggerStress Undefined Undefined None (initial ∅)))
  = [("POST", "/stress/start?seconds=30&intensity=0.9")].
Proof.
  refine (proj1 (triggerStress_request Undefined Undefined "30" "0.9" None (initial ∅) _ _));
    vm_compute; reflexivity.
Defined.

(** ** Page load *)

Lemma same_controls_refl (w : world) : same_controls w w.
Proof. repeat split. Qed.

Lemma same_controls_trans (a b c : world) :
  same_controls a b -> same_controls b c -> same_controls a c.
Proof. unfold same_controls, same_element. intuition congruence. Qed.

Lemma mountKPI_controls (id label unit_ : string) :
  id <> "btn-stress" -> id <> "btn-stress-stop" ->
  id ++ "-value" <> "btn-stress" -> id ++ "-value" <> "btn-stress-stop" ->
  keeps same_controls (mountKPI id label unit_).
Proof.
  intros H1 H2 H3 H4 w. unfold mountKPI, bind, getElementById, update_element, modify.
  destruct (document w !! id); cbn [snd]; [|apply same_controls_refl].
  unfold same_controls, same_element. cbn.
  rewrite !lookup_insert_ne, !lookup_alter_ne by assumption. auto.
Qed.

Lemma mount_kpis_controls : keeps same_controls mount_kpis.
Proof.
  unfold mount_kpis.
  repeat first
    [ apply mountKPI_controls; cbn; discriminate
    | apply keeps_bind; [exact same_controls_trans | | intros _] ].
Qed.

Lemma mount_charts_controls : keeps same_controls mount_charts.
Proof.
  intros w. unfold mount_charts, bind, getElementById, makeSensorChart, makeRiskChart,
    new_Chart, modify. cbn. repeat split.
Qed.

Lemma before_buttons (page : gmap string element) :
  same_controls (initial page)
    (snd ((mount_kpis ;;; mount_charts) (initial page))).
Proof.
  apply (keeps_bind same_controls same_controls_trans).
  - apply mount_kpis_controls.
  - intros _. apply mount_charts_controls.
Qed.

Lemma DOMContentLoaded_unfold (page : gmap string element) :
  DOMContentLoaded (initial page)
  = mount_buttons (snd ((mount_kpis ;;; mount_charts) (initial page))).
Proof.
  assert (Total : forall k l u w, fst (mountKPI k l u w) = Normal tt).
  { intros k l u w. unfold mountKPI, bind, getElementById.
    destruct (document w !! k); reflexivity. }
  assert (Bind : forall (m k : M unit) w,
             fst (m w) = Normal tt -> (m ;;; k) w = k (snd (m w))).
  { intros m k w H. unfold bind. destruct (m w) as [[[]|e] w1]; [reflexivity|discriminate]. }
  unfold DOMContentLoaded.
  assert (Hk : forall w, fst (mount_kpis w) = Normal tt).
  { intros w. unfold mount_kpis. rewrite !Bind by apply Total. apply Total. }
  rewrite (Bind mount_kpis _ _ (Hk _)).
  rewrite (Bind mount_kpis mount_charts _ (Hk _)).
  set (w1 := snd (mount_kpis (initial page))).
  assert (Hc : fst (mount_charts w1) = Normal tt) by reflexivity.
  rewrite (Bind mount_charts _ _ Hc). reflexivity.
Qed.

Lemma mount_buttons_listeners (w : world) :
  listeners w = [] ->
  fst (mount_buttons w) = Normal tt
  /\ listeners (snd (mount_buttons w))
     = ((match document w !! "btn-stress" with
         | Some _ => [("btn-stress",
                       ClickTriggerStress (Number (of_Z 30))
                                          (Number (of_decimal false 9 (-1))))]
         | None => []
         end)
        ++ (match document w !! "btn-stress-stop" with
            | Some _ => [("btn-stress-stop", ClickStopStress)]
            | None => []
            end))%list
  /\ requests (snd (mount_buttons w)) = requests w.
Proof.
  intros Hl. unfold mount_buttons, addEventListener, bind, getElementById, modify, ret.
  destruct (document w !! "btn-stress"); cbn [document set_listeners];
    destruct (document w !! "btn-stress-stop"); cbn; rewrite ?Hl; auto.
Qed.

Lemma dispatch_here (id : string) (h : handler) (rest : list (string * handler))
      (outcome : option error) (w : world) :
  fst (run_handler h outcome w) = Normal tt ->
  dispatch id ((id, h) :: rest) outcome w
  = dispatch id rest outcome (snd (run_handler h outcome w)).
Proof.
  intros Hh. cbn [dispatch]. rewrite String.eqb_refl. unfold bind.
  destruct (run_handler h outcome w) as [[[]|e] w1]; [reflexivity | discriminate].
Qed.

Lemma dispatch_elsewhere (id id' : string) (h : handler) (rest : list (string * handler))
      (outcome : option error) (w : world) :
  id <> id' ->
  dispatch id ((id', h) :: rest) outcome w = dispatch id rest outcome w.
Proof.
  intros Hne. cbn [dispatch]. apply String.eqb_neq in Hne. rewrite Hne. reflexivity.
Qed.

Lemma stopStress_run (outcome : option error) (w : world) :
  requests (snd (stopStress outcome w)) = (requests w ++ [("POST", "/stress/stop")])%list.
Proof.
  unfold stopStress, try_catch, bind, request, modify, throw, ret, console_error.
  destruct outcome; reflexivity.
Qed.

Lemma run_handler_total (h : handler) (outcome : option error) (w : world) :
  fst (run_handler h outcome w) = Normal tt.
Proof. destruct h; apply try_catch_total; reflexivity. Qed.

(** X8. After the page has loaded, a click on the start button sends one
    POST to [/stress/start?seconds=30&intensity=0.9] and a click on the stop
    button one POST to [/stress/stop]; a button that is not on the page has
    no listener, and clicking it does nothing. *)
Theorem clicks_after_load (page : gmap string element) (outcome : option error) :
  let w := snd (DOMContentLoaded (initial page)) in
  (is_Some (page !! "btn-stress") ->
   requests (snd (click "btn-stress" outcome w))
   = [("POST", "/stress/start?seconds=30&intensity=0.9")])
  /\ (is_Some (page !! "btn-stress-stop") ->
      requests (snd (click "btn-stress-stop" outcome w)) = [("POST", "/stress/stop")])
  /\ (page !! "btn-stress" = None -> click "btn-stress" outcome w = (Normal tt, w))
  /\ (page !! "btn-stress-stop" = None ->
      click "btn-stress-stop" outcome w = (Normal tt, w)).
Proof.
  cbv zeta. rewrite DOMContentLoaded_unfold.
  destruct (before_buttons page) as (Hreq & Hlis & Hb1 & Hb2).
  set (w1 := snd ((mount_kpis ;;; mount_charts) (initial page))) in *.
  unfold same_element in Hb1, Hb2. cbn [document initial] in Hb1, Hb2.
  cbn [requests listeners initial] in Hreq, Hlis.
  destruct (mount_buttons_listeners w1 Hlis) as (_ & Hl & Hr).
  rewrite Hb1, Hb2 in Hl. rewrite Hreq in Hr.
  set (w2 := snd (mount_buttons w1)) in *.
  assert (Start : forall w,
             requests (snd (run_handler
                              (ClickTriggerStress (Number (of_Z 30))
                                 (Number (of_decimal false 9 (-1)))) outcome w))
             = (requests w ++ [("POST", "/stress/start?seconds=30&intensity=0.9")])%list).
  { intros w. apply (triggerStress_run _ _ "30" "0.9"); vm_compute; reflexivity. }
  unfold click. rewrite Hl.
  repeat split.
  - intros [el Hel]. rewrite Hel. cbn [app].
    rewrite dispatch_here by apply run_handler_total.
    destruct (page !! "btn-stress-stop").
    + rewrite dispatch_elsewhere by discriminate. cbn [dispatch ret snd].
      rewrite Start, Hr. reflexivity.
    + cbn [dispatch ret snd]. rewrite Start, Hr. reflexivity.
  - intros [el Hel]. rewrite Hel.
    destruct (page !! "btn-stress"); cbn [app].
    + rewrite dispatch_elsewhere by discriminate.
      rewrite dispatch_here by apply run_handler_total. cbn [dispatch ret snd run_handler].
      rewrite stopStress_run, Hr. reflexivity.
    + rewrite dispatch_here by apply run_handler_total. cbn [dispatch ret snd run_handler].
      rewrite stopStress_run, Hr. reflexivity.
  - intros ->. destruct (page !! "btn-stress-stop"); cbn [app].
    + rewrite dispatch_elsewhere by discriminate. reflexivity.
    + reflexivity.
  - intros ->. destruct (page !! "btn-stress"); cbn [app].
    + rewrite dispatch_elsewhere by discriminate. reflexivity.
    + reflexivity.
Qed.

Lemma clicks_after_load_witness :
  requests (snd (click "btn-stress" None
                   (snd (DOMContentLoaded (initial {[ "btn-stress" := demo_state ]})))))
  = [("POST", "/stress/start?seconds=30&intensity=0.9")].
Proof.
  refine (proj1 (clicks_after_load {[ "btn-stress" := demo_state ]} None) _).
  exists demo_state. vm_compute. reflexivity.
Defined.

(** ** What a tick sends and logs *)

Lemma same_log_refl (w : world) : same_log w w.
Proof. split; reflexivity. Qed.

Lemma same_log_trans (a b c : world) : same_log a b -> same_log b c -> same_log a c.
Proof. unfold same_log. intuition congruence. Qed.

Lemma history_ok_kept_refl (w : world) : history_ok_kept w w.
Proof. intros H. exact H. Qed.

Lemma history_ok_kept_trans (a b c : world) :
  history_ok_kept a b -> history_ok_kept b c -> history_ok_kept a c.
Proof. unfold history_ok_kept. auto. Qed.

Ltac frame_side ::=
  first [ exact same_history_refl | exact same_history_trans
        | exact (same_element_refl _) | exact (same_element_trans _)
        | exact same_log_refl | exact same_log_trans
        | exact history_ok_kept_refl | exact history_ok_kept_trans ].

Lemma update_element_log (id : string) (f : element -> element) :
  keeps same_log (update_element id f).
Proof. apply keeps_modify. intros w. split; reflexivity. Qed.

Lemma setTimeout_log (cb : callback) (ms : Z) : keeps same_log (setTimeout cb ms).
Proof. apply keeps_modify. intros w. split; reflexivity. Qed.

Lemma update_charts_log : keeps same_log update_charts.
Proof.
  unfold update_charts. repeat keeps_step; apply keeps_modify; intros w; split; reflexivity.
Qed.

Lemma push_label_log (ts : string) : keeps same_log (push_label ts).
Proof. apply keeps_modify. intros w. split; reflexivity. Qed.

Lemma push_risk_log (risk : value) : keeps same_log (push_risk risk).
Proof. apply keeps_modify. intros w. split; reflexivity. Qed.

Lemma push_channel_log (c : channel) (s : value) : keeps same_log (push_channel c s).
Proof.
  unfold push_channel. repeat keeps_step. apply keeps_modify. intros w. split; reflexivity.
Qed.

#[export] Hint Resolve update_element_log setTimeout_log update_charts_log
  push_label_log push_risk_log push_channel_log : frame.

Lemma render_log (data s risk dist : value) : keeps same_log (render data s risk dist).
Proof.
  unfold render, update_kpis, show_kpi, setKPI, update_state, update_stress,
    update_recommendation.
  keeps_auto.
Qed.

Lemma ingest_log (r : response) (now : string) (w : world) :
  requests (snd (ingest r now w)) = (requests w ++ [("GET", "/sensor_data")])%list
  /\ console (snd (ingest r now w)) = console w.
Proof.
  set (w0 := set_requests (requests w ++ [("GET", "/sensor_data")])%list w).
  assert (same_log w0 (snd (ingest r now w))) as [Hr Hc]; [|rewrite Hr, Hc; auto].
  unfold ingest, fetch_json, request, modify.
  change (bind (bind (fun w => (Normal tt, _)) ?f) ?k w)
    with (bind (f tt) k w0).
  apply (keeps_bind same_log same_log_trans).
  - destruct r; intros w1; apply same_log_refl.
  - intros data. unfold append_history. keeps_auto.
Qed.

(** X9. Every tick, however it ends, sends exactly one GET to
    [/sensor_data]; it writes [poll failed] to the console exactly when its
    body threw, and nothing otherwise. *)
Theorem tick_sends_one_request (r : response) (now : string) (w : world) :
  fst (tick r now w) = Normal tt
  /\ requests (after_tick r now w) = (requests w ++ [("GET", "/sensor_data")])%list
  /\ console (after_tick r now w)
     = (console w ++ match fst (tick_body r now w) with
                     | Normal _ => []
                     | Throw e => [("poll failed", e)]
                     end)%list.
Proof.
  destruct (ingest_log r now w) as [Hr Hc].
  unfold after_tick, tick, try_catch, tick_body, bind in *.
  destruct (ingest r now w) as [[[[[data s] risk] dist]|e] w1]; cbn [fst snd] in *.
  - destruct (render_log data s risk dist w1) as [Hr2 Hc2].
    destruct (render data s risk dist w1) as [[[]|e] w2]; cbn [fst snd] in *.
    + rewrite Hr2, Hc2, Hr, Hc, app_nil_r. auto.
    + cbn. rewrite Hr2, Hc2, Hr, Hc. auto.
  - cbn. rewrite Hr, Hc. auto.
Qed.

(** ** The history, whatever arrives *)

Lemma pushLimited_ok (P : value -> Prop) (arr : list value) (v : value) :
  (length arr <= 30)%nat /\ Forall P arr -> P v ->
  (length (pushLimited arr v HISTORY_MAX) <= 30)%nat
  /\ Forall P (pushLimited arr v HISTORY_MAX).
Proof.
  intros [Hl Hf] Hv. split.
  - rewrite pushLimited_history_length. lia.
  - rewrite pushLimited_drop. apply Forall_drop, Forall_app. auto.
Qed.

Lemma push_label_ok (ts : string) : keeps history_ok_kept (push_label ts).
Proof.
  apply keeps_modify. intros w (Hl & Hc & Hr).
  split; [|split]; cbn; auto. apply pushLimited_ok; auto.
Qed.

Lemma push_channel_ok (c : channel) (s : value) : keeps history_ok_kept (push_channel c s).
Proof.
  intros w (Hl & Hc & Hr). unfold push_channel, bind, lift.
  destruct (get s (channel_key c)) as [raw|]; cbn [snd]; [|split; auto].
  destruct (Number_or_0 raw) as [v|] eqn:Hv; cbn [snd]; [|split; auto].
  apply Number_or_0_Normal in Hv as (n & _ & ->).
  split; [|split]; cbn [modify snd labels sensorsHist riskHist set_sensorsHist]; auto.
  intros c'. destruct c, c'; cbn [channel_hist set_channel temperature_c pressure_bar
    load_pct throughput vibration humidity];
    first [ apply (pushLimited_ok (fun v => is_number v = true));
            [ first [ exact (Hc Temperature) | exact (Hc Pressure) | exact (Hc Load)
                    | exact (Hc Throughput) | exact (Hc Vibration) | exact (Hc Humidity) ]
            | reflexivity ]
          | first [ exact (Hc Temperature) | exact (Hc Pressure) | exact (Hc Load)
                  | exact (Hc Throughput) | exact (Hc Vibration) | exact (Hc Humidity) ] ].
Qed.

Lemma push_risk_ok (n : number) : keeps history_ok_kept (push_risk (Number n)).
Proof.
  apply keeps_modify. intros w (Hl & Hc & Hr).
  split; [|split]; cbn; auto. apply pushLimited_ok; auto.
Qed.

Lemma ingest_ok (r : response) (now : string) : keeps history_ok_kept (ingest r now).
Proof.
  intros w Hw. unfold ingest, fetch_json, request, modify, bind, lift, ret, throw.
  destruct r as [e|e|data]; cbn [snd]; try exact Hw.
  destruct (get data "sensors") as [sv|]; cbn [snd]; [|exact Hw].
  destruct (get data "risk") as [rv|]; cbn [snd]; [|exact Hw].
  destruct (Number_or_0 rv) as [risk|] eqn:Hrisk; cbn [snd]; [|exact Hw].
  apply Number_or_0_Normal in Hrisk as (n & _ & ->).
  destruct (get data "distance_m") as [dist|]; cbn [snd]; [|exact Hw].
  set (w0 := set_requests _ w).
  assert (Hw0 : history_ok w0) by exact Hw.
  assert (K : keeps history_ok_kept (append_history now (or_else sv (Object [])) (Number n))).
  { unfold append_history.
    repeat first [ apply push_label_ok | apply push_channel_ok | apply push_risk_ok
                 | apply keeps_bind; [exact history_ok_kept_trans | | intros _] ]. }
  specialize (K w0 Hw0).
  destruct (append_history now (or_else sv (Object [])) (Number n) w0) as [[[]|e] w1];
    exact K.
Qed.

Lemma history_ok_same (w w' : world) : same_history w w' -> history_ok w -> history_ok w'.
Proof. unfold same_history, history_ok. intros (-> & -> & ->). trivial. Qed.

Lemma after_tick_ok (r : response) (now : string) (w : world) :
  history_ok w -> history_ok (after_tick r now w).
Proof.
  intros Hw. eapply history_ok_same; [apply after_tick_history|].
  apply ingest_ok, Hw.
Qed.

(** X10. Whatever the responses are (rejections, bodies of any shape,
    conversions that throw half way through the appends), after every tick
    of a run from the empty history no array holds more than 30 entries,
    the labels are strings and every sensor and risk entry is a number. *)
Theorem history_bounded_and_typed (page : gmap string element)
        (ticks : list (response * string)) :
  Forall history_ok (poll_trace ticks (initial page)).
Proof.
  assert (H0 : history_ok (initial page)).
  { split; [|split]; cbn; [split; [lia|constructor]| |split; [lia|constructor]].
    intros []; cbn; split; try lia; constructor. }
  revert H0. generalize (initial page).
  induction ticks as [|[r now] ticks IH]; intros w Hw; cbn; constructor.
  - apply after_tick_ok, Hw.
  - apply IH, after_tick_ok, Hw.
Qed.

(** ** What a completed tick shows *)

Lemma class_toggle_own (tok : string) (force : bool) (l : list string) :
  tok ∈ class_toggle tok force l <-> force = true.
Proof.
  destruct force; cbn [class_toggle]; split; intros H; try reflexivity; try discriminate.
  - apply class_add_present.
  - exfalso. exact (class_remove_absent tok l H).
Qed.

Lemma class_toggle_other (tok t : string) (force : bool) (l : list string) :
  tok <> t -> tok ∈ class_toggle t force l <-> tok ∈ l.
Proof.
  intros Hne. destruct force; cbn [class_toggle].
  - unfold class_add. destruct (decide (t ∈ l)); [reflexivity|].
    rewrite elem_of_app, list_elem_of_singleton. tauto.
  - unfold class_remove. rewrite list_elem_of_filter. tauto.
Qed.

Lemma strict_eq_str_spec (v : value) (lit : string) :
  strict_eq_str v lit = true <-> v = Str lit.
Proof.
  destruct v; cbn; try (split; [discriminate | intros [=]]).
  rewrite String.eqb_eq. split; [intros -> | intros [=]]; auto.
Qed.

Lemma tick_state_slot (data : value) (now : string) (el : element) (w w' : world) :
  document w !! "system-state" = Some el ->
  tick_body (Json data) now w = (Normal tt, w') ->
  exists st text,
    get data "system_state" = Normal st
    /\ ToString (or_else st (Str "RUNNING")) = Normal text
    /\ document w' !! "system-state" = Some (shown_state st text el).
Proof.
  intros Hel H.
  apply tick_body_Normal in H
    as (data' & s & risk & dist & w1 & w2 & w3 & w4 & w5 & H1 & H2 & H3 & H4 & H5 & H6).
  pose proof (ingest_Normal _ _ _ _ _ _ _ _ H1) as (Hd & _). injection Hd as <-.
  pose proof (keeps_run _ _ _ _ _ (ingest_element "system-state" _ _) H1) as F1.
  pose proof (keeps_run _ _ _ _ _ (update_charts_element "system-state") H2) as F2.
  pose proof (keeps_run _ _ _ _ _
                (update_kpis_element "system-state" s
                   (not_in_kpi_slots _ (or_introl eq_refl))) H3) as F3.
  assert (Hel3 : document w3 !! "system-state" = Some el).
  { unfold same_element in *. congruence. }
  destruct (update_state_Normal _ _ _ _ Hel3 H4) as (st & text & Hst & Htext & Hdoc).
  pose proof (keeps_run _ _ _ _ _
                (update_stress_element "system-state" data
                   ltac:(discriminate) ltac:(discriminate)) H5) as F5.
  pose proof (keeps_run _ _ _ _ _
                (update_recommendation_element "system-state" s risk dist
                   ltac:(discriminate)) H6) as F6.
  exists st, text. repeat split; auto.
  unfold same_element in *. congruence.
Qed.

(** X11. After a tick that runs to completion the state slot shows
    [String(system_state || "RUNNING")], scaled up for the pulse; it carries
    [status-running] exactly when the field is the string [RUNNING] and
    [status-stopped] exactly when it is [STOPPED] (so never both), and its
    other classes are as before. *)
Theorem state_slot_classes (data : value) (now : string) (el : element) (w w' : world) :
  document w !! "system-state" = Some el ->
  tick_body (Json data) now w = (Normal tt, w') ->
  exists st text el',
    get data "system_state" = Normal st
    /\ ToString (or_else st (Str "RUNNING")) = Normal text
    /\ document w' !! "system-state" = Some el'
    /\ el_content el' = Text text
    /\ transform el' = "scale(1.04)"
    /\ ("status-running" ∈ classList el' <-> st = Str "RUNNING")
    /\ ("status-stopped" ∈ classList el' <-> st = Str "STOPPED")
    /\ (forall tok, tok <> "status-running" -> tok <> "status-stopped" ->
                    tok ∈ classList el' <-> tok ∈ classList el).
Proof.
  intros Hel H.
  destruct (tick_state_slot data now el w w' Hel H) as (st & text & Hst & Htext & Hdoc).
  exists st, text, (shown_state st text el).
  repeat (split; [first [assumption | reflexivity]|]).
  cbn [shown_state classList]. split; [|split].
  - rewrite class_toggle_other by discriminate.
    rewrite class_toggle_own. apply strict_eq_str_spec.
  - rewrite class_toggle_own. apply strict_eq_str_spec.
  - intros tok Hr Hs. rewrite !class_toggle_other by assumption. reflexivity.
Qed.

Lemma state_slot_classes_witness :
  exists st text el',
    get (Object [("system_state", Str "STOPPED")]) "system_state" = Normal st
    /\ ToString (or_else st (Str "RUNNING")) = Normal text
    /\ document (snd (tick_body (Json (Object [("system_state", Str "STOPPED")]))
                        "10:00:00" (initial demo_full_page)))
       !! "system-state" = Some el'
    /\ el_content el' = Text text
    /\ transform el' = "scale(1.04)"
    /\ ("status-running" ∈ classList el' <-> st = Str "RUNNING")
    /\ ("status-stopped" ∈ classList el' <-> st = Str "STOPPED")
    /\ (forall tok, tok <> "status-running" -> tok <> "status-stopped" ->
                    tok ∈ classList el' <-> tok ∈ classList demo_state).
Proof.
  apply (state_slot_classes (Object [("system_state", Str "STOPPED")]) "10:00:00"
           demo_state (initial demo_full_page)).
  - vm_compute. reflexivity.
  - vm_compute. reflexivity.
Defined.

Lemma update_recommendation_Normal (s risk dist : value) (el : element) (w w' : world) :
  document w !! "recommendation" = Some el ->
  update_recommendation s risk dist w = (Normal tt, w') ->
  exists text, recommend s risk dist = Normal text
               /\ document w' !! "recommendation" = Some (set_textContent text el).
Proof.
  intros Hel H.
  unfold update_recommendation, bind, getElementById, lift, update_element, modify in H.
  rewrite Hel in H.
  destruct (recommend s risk dist) as [text|]; [|discriminate].
  injection H as <-. exists text. split; [reflexivity|].
  cbn [document set_document]. rewrite lookup_alter_eq, Hel. reflexivity.
Qed.

(** X12. After a tick that runs to completion the recommendation slot
    shows [recommend(s, risk, dist)] for the frame's sensors (or [{}]), its
    risk as a number and its distance. *)
Theorem recommendation_slot_shows_advice (data : value) (now : string)
        (el : element) (w w' : world) :
  document w !! "recommendation" = Some el ->
  tick_body (Json data) now w = (Normal tt, w') ->
  exists sv rv n dist text,
    get data "sensors" = Normal sv
    /\ get data "risk" = Normal rv
    /\ ToNumber (coalesce rv zero) = Normal n
    /\ get data "distance_m" = Normal dist
    /\ recommend (or_else sv (Object [])) (Number n) dist = Normal text
    /\ document w' !! "recommendation" = Some (set_textContent text el).
Proof.
  intros Hel H.
  apply tick_body_Normal in H
    as (data' & s & risk & dist & w1 & w2 & w3 & w4 & w5 & H1 & H2 & H3 & H4 & H5 & H6).
  pose proof (ingest_Normal _ _ _ _ _ _ _ _ H1)
    as (Hd & (sv & Hsv & ->) & (rv & n & Hrv & Hn & ->) & Hdist & _).
  injection Hd as <-.
  pose proof (keeps_run _ _ _ _ _ (ingest_element "recommendation" _ _) H1) as F1.
  pose proof (keeps_run _ _ _ _ _ (update_charts_element "recommendation") H2) as F2.
  pose proof (keeps_run _ _ _ _ _
                (update_kpis_element "recommendation" _
                   (not_in_kpi_slots "recommendation"
                      (or_intror (or_intror (or_intror eq_refl))))) H3) as F3.
  pose proof (keeps_run _ _ _ _ _
                (update_state_element "recommendation" data ltac:(discriminate)) H4) as F4.
  pose proof (keeps_run _ _ _ _ _
                (update_stress_element "recommendation" data
                   ltac:(discriminate) ltac:(discriminate)) H5) as F5.
  assert (Hel5 : document w5 !! "recommendation" = Some el).
  { unfold same_element in *. congruence. }
  destruct (update_recommendation_Normal _ _ _ _ _ _ Hel5 H6) as (text & Hrec & Hdoc).
  exists sv, rv, n, dist, text. repeat split; assumption.
Qed.

Lemma recommendation_slot_shows_advice_witness :
  exists sv rv n dist text,
    get demo_stress_frame "sensors" = Normal sv
    /\ get demo_stress_frame "risk" = Normal rv
    /\ ToNumber (coalesce rv zero) = Normal n
    /\ get demo_stress_frame "distance_m" = Normal dist
    /\ recommend (or_else sv (Object [])) (Number n) dist = Normal text
    /\ document (snd (tick_body (Json demo_stress_frame) "10:00:00" (initial demo_full_page)))
       !! "recommendation" = Some (set_textContent text demo_state).
Proof.
  apply (recommendation_slot_shows_advice demo_stress_frame "10:00:00" demo_state
           (initial demo_full_page)).
  - vm_compute. reflexivity.
  - vm_compute. reflexivity.
Defined.

Lemma show_kpi_Normal (k : string) (c : channel) (d : Z) (s : value) (w w' : world) :
  show_kpi k c d s w = (Normal tt, w') ->
  exists raw text,
    get s (channel_key c) = Normal raw
    /\ fmt raw d = Normal text
    /\ forall el, document w !! (k ++ "-value") = Some el ->
                  document w' !! (k ++ "-value") = Some (set_textContent text el).
Proof.
  unfold show_kpi. intros H.
  apply bind_Normal in H as (raw & w1 & H1 & H). apply lift_Normal in H1 as [H1 ->].
  apply bind_Normal in H as (text & w2 & H2 & H). apply lift_Normal in H2 as [H2 ->].
  exists raw, text. split; [exact H1|]. split; [exact H2|].
  intros el Hel. unfold setKPI, bind, getElementById, update_element, modify in H.
  rewrite Hel in H. injection H as <-.
  cbn [document set_document]. rewrite lookup_alter_eq, Hel. reflexivity.
Qed.

Lemma show_kpi_element (id k : string) (c : channel) (d : Z) (s : value) :
  k ++ "-value" <> id -> keeps (same_element id) (show_kpi k c d s).
Proof. intros Hne. unfold show_kpi. keeps_auto2. Qed.

Lemma update_kpis_Normal (s : value) (w w' : world) :
  update_kpis s w = (Normal tt, w') ->
  forall k c d el,
    (k, c, d) ∈ kpi_table ->
    document w !! (k ++ "-value") = Some el ->
    exists raw text,
      get s (channel_key c) = Normal raw
      /\ fmt raw d = Normal text
      /\ document w' !! (k ++ "-value") = Some (set_textContent text el).
Proof.
  unfold update_kpis. intros H.
  apply bind_Normal in H as ([] & w1 & H1 & H).
  apply bind_Normal in H as ([] & w2 & H2 & H).
  apply bind_Normal in H as ([] & w3 & H3 & H).
  apply bind_Normal in H as ([] & w4 & H4 & H).
  apply bind_Normal in H as ([] & w5 & H5 & H).
  assert (F : forall id k c d wa wb,
             show_kpi k c d s wa = (Normal tt, wb) -> k ++ "-value" <> id ->
             document wb !! id = document wa !! id).
  { intros id k c d wa wb Hrun Hne.
    exact (keeps_run _ _ _ _ _ (show_kpi_element id k c d s Hne) Hrun). }
  intros k c d el Hin Hel. unfold kpi_table in Hin.
  repeat (apply elem_of_cons in Hin as [Hin|Hin]); try (apply elem_of_nil in Hin; tauto);
    injection Hin as -> -> ->.
  - destruct (show_kpi_Normal _ _ _ _ _ _ H1) as (raw & text & Hg & Hf & Hset).
    exists raw, text. split; [exact Hg|]. split; [exact Hf|].
    rewrite (F _ _ _ _ _ _ H) by (cbn; discriminate).
    rewrite (F _ _ _ _ _ _ H5) by (cbn; discriminate).
    rewrite (F _ _ _ _ _ _ H4) by (cbn; discriminate).
    rewrite (F _ _ _ _ _ _ H3) by (cbn; discriminate).
    rewrite (F _ _ _ _ _ _ H2) by (cbn; discriminate).
    apply Hset, Hel.
  - destruct (show_kpi_Normal _ _ _ _ _ _ H2) as (raw & text & Hg & Hf & Hset).
    exists raw, text. split; [exact Hg|]. split; [exact Hf|].
    rewrite (F _ _ _ _ _ _ H) by (cbn; discriminate).
    rewrite (F _ _ _ _ _ _ H5) by (cbn; discriminate).
    rewrite (F _ _ _ _ _ _ H4) by (cbn; discriminate).
    rewrite (F _ _ _ _ _ _ H3) by (cbn; discriminate).
    apply Hset. rewrite (F _ _ _ _ _ _ H1) by (cbn; discriminate). exact Hel.
  - destruct (show_kpi_Normal _ _ _ _ _ _ H3) as (raw & text & Hg & Hf & Hset).
    exists raw, text. split; [exact Hg|]. split; [exact Hf|].
    rewrite (F _ _ _ _ _ _ H) by (cbn; discriminate).
    rewrite (F _ _ _ _ _ _ H5) by (cbn; discriminate).
    rewrite (F _ _ _ _ _ _ H4) by (cbn; discriminate).
    apply Hset. rewrite (F _ _ _ _ _ _ H2) by (cbn; discriminate).
    rewrite (F _ _ _ _ _ _ H1) by (cbn; discriminate). exact Hel.
  - destruct (show_kpi_Normal _ _ _ _ _ _ H4) as (raw & text & Hg & Hf & Hset).
    exists raw, text. split; [exact Hg|]. split; [exact Hf|].
    rewrite (F _ _ _ _ _ _ H) by (cbn; discriminate).
    rewrite (F _ _ _ _ _ _ H5) by (cbn; discriminate).
    apply Hset. rewrite (F _ _ _ _ _ _ H3) by (cbn; discriminate).
    rewrite (F _ _ _ _ _ _ H2) by (cbn; discriminate).
    rewrite (F _ _ _ _ _ _ H1) by (cbn; discriminate). exact Hel.
  - destruct (show_kpi_Normal _ _ _ _ _ _ H5) as (raw & text & Hg & Hf & Hset).
    exists raw, text. split; [exact Hg|]. split; [exact Hf|].
    rewrite (F _ _ _ _ _ _ H) by (cbn; discriminate).
    apply Hset. rewrite (F _ _ _ _ _ _ H4) by (cbn; discriminate).
    rewrite (F _ _ _ _ _ _ H3) by (cbn; discriminate).
    rewrite (F _ _ _ _ _ _ H2) by (cbn; discriminate).
    rewrite (F _ _ _ _ _ _ H1) by (cbn; discriminate). exact Hel.
  - destruct (show_kpi_Normal _ _ _ _ _ _ H) as (raw & text & Hg & Hf & Hset).
    exists raw, text. split; [exact Hg|]. split; [exact Hf|].
    apply Hset. rewrite (F _ _ _ _ _ _ H5) by (cbn; discriminate).
    rewrite (F _ _ _ _ _ _ H4) by (cbn; discriminate).
    rewrite (F _ _ _ _ _ _ H3) by (cbn; discriminate).
    rewrite (F _ _ _ _ _ _ H2) by (cbn; discriminate).
    rewrite (F _ _ _ _ _ _ H1) by (cbn; discriminate). exact Hel.
Qed.

Lemma kpi_table_slots (k : string) (c : channel) (d : Z) :
  (k, c, d) ∈ kpi_table ->
  k ++ "-value" <> "system-state" /\ k ++ "-value" <> "stress-banner"
  /\ k ++ "-value" <> "stress-timer" /\ k ++ "-value" <> "recommendation".
Proof.
  unfold kpi_table. intros Hin.
  repeat (apply elem_of_cons in Hin as [Hin|Hin]); try (apply elem_of_nil in Hin; tauto);
    injection Hin as -> -> ->; cbn; repeat split; discriminate.
Qed.

(** X13. After a tick that runs to completion each mounted KPI slot shows
    [fmt] of its channel's field with that card's decimals: temperature 1,
    pressure 2, load 0, throughput 0, vibration 2, humidity 0. *)
Theorem kpi_slots_show_formatted (data : value) (now : string) (w w' : world)
        (k : string) (c : channel) (d : Z) (el : element) :
  (k, c, d) ∈ kpi_table ->
  document w !! (k ++ "-value") = Some el ->
  tick_body (Json data) now w = (Normal tt, w') ->
  exists sv raw text,
    get data "sensors" = Normal sv
    /\ get (or_else sv (Object [])) (channel_key c) = Normal raw
    /\ fmt raw d = Normal text
    /\ document w' !! (k ++ "-value") = Some (set_textContent text el).
Proof.
  intros Hin Hel H.
  destruct (kpi_table_slots k c d Hin) as (N1 & N2 & N3 & N4).
  apply tick_body_Normal in H
    as (data' & s & risk & dist & w1 & w2 & w3 & w4 & w5 & H1 & H2 & H3 & H4 & H5 & H6).
  pose proof (ingest_Normal _ _ _ _ _ _ _ _ H1) as (Hd & (sv & Hsv & ->) & _).
  injection Hd as <-.
  pose proof (keeps_run _ _ _ _ _ (ingest_element (k ++ "-value") _ _) H1) as F1.
  pose proof (keeps_run _ _ _ _ _ (update_charts_element (k ++ "-value")) H2) as F2.
  assert (Hel2 : document w2 !! (k ++ "-value") = Some el).
  { unfold same_element in *. congruence. }
  destruct (update_kpis_Normal _ _ _ H3 k c d el Hin Hel2) as (raw & text & Hg & Hf & Hdoc).
  pose proof (keeps_run _ _ _ _ _
                (update_state_element (k ++ "-value") data N1) H4) as F4.
  pose proof (keeps_run _ _ _ _ _
                (update_stress_element (k ++ "-value") data N2 N3) H5) as F5.
  pose proof (keeps_run _ _ _ _ _
                (update_recommendation_element (k ++ "-value") _ risk dist N4) H6) as F6.
  exists sv, raw, text. repeat split; try assumption.
  unfold same_element in *. congruence.
Qed.

Lemma kpi_slots_show_formatted_witness :
  exists sv raw text,
    get (Object [("sensors", Object [("load_pct", Number (of_decimal false 625 (-1)))])])
        "sensors" = Normal sv
    /\ get (or_else sv (Object [])) (channel_key Load) = Normal raw
    /\ fmt raw 0 = Normal text
    /\ document
         (snd (tick_body
                 (Json (Object [("sensors",
                                 Object [("load_pct", Number (of_decimal false 625 (-1)))])]))
                 "10:00:00" (initial demo_full_page)))
       !! ("kpi-load" ++ "-value") = Some (set_textContent text demo_state).
Proof.
  apply (kpi_slots_show_formatted
           (Object [("sensors", Object [("load_pct", Number (of_decimal false 625 (-1)))])])
           "10:00:00" (initial demo_full_page) _ "kpi-load" Load 0 demo_state).
  - unfold kpi_table. set_solver.
  - vm_compute. reflexivity.
  - vm_compute. reflexivity.
Defined.

(** ** Frames on which a tick cannot fail *)

Lemma returns_bind {A B} (P : A -> Prop) (Q : B -> Prop) (m : M A) (k : A -> M B) :
  returns P m -> (forall a, P a -> returns Q (k a)) -> returns Q (bind m k).
Proof.
  intros Hm Hk w. destruct (Hm w) as (a & w1 & Hrun & Ha).
  destruct (Hk a Ha w1) as (b & w2 & Hrun2 & Hb).
  exists b, w2. split; [|exact Hb]. unfold bind. rewrite Hrun. exact Hrun2.
Qed.

Lemma returns_lift {A} (a : A) : returns (eq a) (lift (Normal a)).
Proof. intros w. exists a, w. auto. Qed.

Lemma returns_modify (f : world -> world) : returns (fun _ => True) (modify f).
Proof. intros w. exists tt, (f w). auto. Qed.

Lemma returns_ret {A} (a : A) : returns (fun _ => True) (ret a).
Proof. intros w. exists a, w. auto. Qed.

Lemma returns_getElementById (id : string) : returns (fun _ => True) (getElementById id).
Proof. intros w. exists (document w !! id), w. auto. Qed.

Lemma get_field (v : value) (k : string) :
  is_nullish v = false -> get v k = Normal (field v k).
Proof. unfold field. destruct v; cbn; try discriminate; reflexivity. Qed.

Lemma or_else_truthy (a b : value) :
  is_nullish b = false -> is_nullish (or_else a b) = false.
Proof.
  intros Hb. unfold or_else. destruct (ToBoolean a) eqn:E; [|exact Hb].
  destruct a; cbn in *; congruence.
Qed.

Lemma ToString_primitive (v : value) :
  primitive v = true -> exists s, ToString v = Normal s.
Proof. destruct v as [| |[]| | | |]; cbn; try discriminate; eauto. Qed.

Lemma ToNumber_primitive (v : value) :
  primitive v = true -> exists n, ToNumber v = Normal n.
Proof. destruct v as [| |[]| | | |]; cbn; try discriminate; eauto. Qed.

Lemma Number_or_0_primitive (v : value) :
  primitive v = true -> exists n, Number_or_0 v = Normal (Number n).
Proof.
  intros Hv. unfold Number_or_0.
  destruct (ToNumber_primitive (coalesce v (Number (S754_zero false)))) as [n Hn].
  { unfold coalesce. destruct (is_nullish v); [reflexivity | exact Hv]. }
  rewrite Hn. eauto.
Qed.

Lemma fmt_primitive (v : value) (d : Z) :
  primitive v = true -> (0 <= d <= 100)%Z -> exists s, fmt v d = Normal s.
Proof.
  intros Hv Hd. unfold fmt.
  destruct (_ || Number_isNaN v); [eauto|].
  destruct (ToNumber_primitive v Hv) as [n ->]. cbn [cbind]. unfold toFixed.
  destruct (Z.ltb_spec d 0); [lia|]. destruct (Z.ltb_spec 100 d); [lia|].
  cbn [orb]. eauto.
Qed.

Lemma recommend_primitive (s dist : value) (n : number) :
  is_nullish s = false ->
  primitive (field s "temperature_c") = true ->
  primitive (field s "pressure_bar") = true ->
  exists text, recommend s (Number n) dist = Normal text.
Proof.
  intros Hs Ht Hp. unfold recommend, value_ge, value_gt.
  destruct (loose_eq_null dist); [eauto|]. cbn [ToNumber cbind].
  destruct (Num.ge n lit_0_7); [eauto|].
  destruct (Num.ge n lit_0_5); [|eauto].
  rewrite (get_field s "temperature_c" Hs). cbn [cbind].
  destruct (ToNumber_primitive _ Ht) as [t ->]. cbn [cbind].
  destruct (Num.gt t lit_75); [eauto|].
  rewrite (get_field s "pressure_bar" Hs). cbn [cbind].
  destruct (ToNumber_primitive _ Hp) as [p ->]. cbn [cbind].
  destruct (Num.gt p lit_4_0); eauto.
Qed.

Ltac returns_step :=
  first
    [ apply returns_ret
    | apply returns_modify
    | apply returns_getElementById
    | eapply returns_bind; [ | intros ? ? ]
    | match goal with |- returns _ (match ?o with Some _ => _ | None => _ end) =>
        destruct o end
    | match goal with |- returns _ (if ?b then _ else _) => destruct b end ].

Lemma push_channel_returns (c : channel) (s : value) :
  is_nullish s = false ->
  primitive (field s (channel_key c)) = true ->
  returns (fun _ => True) (push_channel c s).
Proof.
  intros Hs Hp. unfold push_channel. rewrite (get_field _ _ Hs).
  eapply returns_bind; [apply returns_lift|]. intros ? <-.
  destruct (Number_or_0_primitive _ Hp) as [n ->].
  eapply returns_bind; [apply returns_lift|]. intros ? _.
  apply returns_modify.
Qed.

Lemma show_kpi_returns (k : string) (c : channel) (d : Z) (s : value) :
  is_nullish s = false ->
  primitive (field s (channel_key c)) = true ->
  (0 <= d <= 100)%Z ->
  returns (fun _ => True) (show_kpi k c d s).
Proof.
  intros Hs Hp Hd. unfold show_kpi, setKPI, update_element. rewrite (get_field _ _ Hs).
  eapply returns_bind; [apply returns_lift|]. intros ? <-.
  destruct (fmt_primitive _ d Hp Hd) as [text ->].
  eapply returns_bind; [apply returns_lift|]. intros ? _.
  repeat returns_step.
Qed.

Lemma plain_frame_completes (data : value) (now : string) :
  plain_frame data -> returns (fun _ => True) (tick_body (Json data) now).
Proof.
  intros (Hd & Hch & Hrisk & Hstate & Hleft).
  set (s := or_else (field data "sensors") (Object [])) in *.
  assert (Hs : is_nullish s = false) by (apply or_else_truthy; reflexivity).
  destruct (Number_or_0_primitive _ Hrisk) as [n Hn].
  unfold tick_body.
  eapply (returns_bind (fun f => f = (data, s, Number n, field data "distance_m"))).
  - unfold ingest, fetch_json, request.
    eapply (returns_bind (eq data)).
    { eapply returns_bind; [apply returns_modify|]. intros ? _ w0. eexists _, w0. eauto. }
    intros d' <-. rewrite !(get_field data _ Hd).
    eapply returns_bind; [apply returns_lift|]. intros ? <-. fold s.
    eapply returns_bind; [apply returns_lift|]. intros ? <-. rewrite Hn.
    eapply returns_bind; [apply returns_lift|]. intros ? <-.
    eapply returns_bind; [apply returns_lift|]. intros ? <-.
    eapply (returns_bind (fun _ => True)).
    + unfold append_history, push_label, push_risk.
      repeat first [ apply push_channel_returns; [exact Hs | apply Hch]
                   | returns_step ].
    + intros _ _ w. eexists _, w. split; reflexivity.
  - intros f ->. unfold render.
    eapply returns_bind; [unfold update_charts; repeat returns_step|]. intros _ _.
    eapply returns_bind.
    { unfold update_kpis.
      repeat first [ apply show_kpi_returns; [exact Hs | apply Hch | lia]
                   | returns_step ]. }
    intros _ _.
    eapply returns_bind.
    { unfold update_state, update_element, setTimeout.
      rewrite !(get_field data _ Hd).
      destruct (ToString_primitive (or_else (field data "system_state") (Str "RUNNING")))
        as [text Htext].
      { unfold or_else. destruct (ToBoolean _); [exact Hstate | reflexivity]. }
      eapply returns_bind; [apply returns_getElementById|]. intros [el|] _;
        [|apply returns_ret].
      eapply returns_bind; [apply returns_lift|]. intros ? <-. rewrite Htext.
      repeat first [ eapply returns_bind; [apply returns_lift|]; intros ? _
                   | returns_step ]. }
    intros _ _.
    eapply returns_bind.
    { unfold update_stress, update_element.
      rewrite (get_field data _ Hd).
      set (stress := or_else (field data "stress") default_stress) in *.
      assert (Hst : is_nullish stress = false) by (apply or_else_truthy; reflexivity).
      destruct (ToString_primitive _ Hleft) as [text Htext].
      eapply returns_bind; [apply returns_lift|]. intros ? <-. fold stress.
      rewrite !(get_field stress _ Hst).
      eapply returns_bind; [apply returns_getElementById|]. intros [b|] _;
        (eapply returns_bind; [apply returns_getElementById|]); intros [t|] _;
        try apply returns_ret.
      eapply returns_bind; [apply returns_lift|]. intros ? _.
      destruct (ToBoolean _).
      - eapply returns_bind; [apply returns_modify|]. intros ? _.
        eapply returns_bind; [apply returns_lift|]. intros ? <-. rewrite Htext.
        eapply returns_bind; [apply returns_lift|]. intros ? _. apply returns_modify.
      - apply returns_modify. }
    intros _ _.
    unfold update_recommendation, update_element.
    destruct (recommend_primitive s (field data "distance_m") n Hs
                (Hch Temperature) (Hch Pressure)) as [text Htext].
    eapply returns_bind; [apply returns_getElementById|]. intros [el|] _;
      [|apply returns_ret].
    rewrite Htext.
    eapply returns_bind; [apply returns_lift|]. intros ? _. apply returns_modify.
Qed.

(** X14. A frame whose converted fields (the six sensors, the risk, the
    system state and the stress countdown) are primitive values or absent
    cannot make a tick fail: from any state and over any page the tick runs
    to completion and logs nothing. *)
Theorem plain_frame_never_fails (data : value) (now : string) (w : world) :
  plain_frame data ->
  fst (tick_body (Json data) now w) = Normal tt
  /\ console (after_tick (Json data) now w) = console w.
Proof.
  intros Hp.
  destruct (plain_frame_completes data now Hp w) as ([] & w' & Hrun & _).
  split; [rewrite Hrun; reflexivity|].
  rewrite (after_tick_Normal _ _ _ _ Hrun).
  pose proof (ingest_log (Json data) now w) as [_ Hc].
  apply tick_body_Normal in Hrun
    as (data' & s & risk & dist & w1 & w2 & w3 & w4 & w5 & H1 & H2 & H3 & H4 & H5 & H6).
  rewrite H1 in Hc. cbn [snd] in Hc.
  pose proof (render_log data' s risk dist w1) as [_ Hc2].
  assert (Hr : render data' s risk dist w1 = (Normal tt, w')).
  { unfold render. rewrite (bind_run _ _ _ _ _ H2), (bind_run _ _ _ _ _ H3),
      (bind_run _ _ _ _ _ H4), (bind_run _ _ _ _ _ H5). exact H6. }
  rewrite Hr in Hc2. cbn [snd] in Hc2. congruence.
Qed.

Lemma plain_frame_never_fails_witness :
  fst (tick_body (Json (Object [("sensors", Object [("temperature_c", Str "hot")]);
                                ("risk", Bool true)]))
                 "10:00:00" (initial demo_full_page)) = Normal tt.
Proof.
  refine (proj1 (plain_frame_never_fails
                   (Object [("sensors", Object [("temperature_c", Str "hot")]);
                            ("risk", Bool true)])
                   "10:00:00" (initial demo_full_page) _)).
  split; [reflexivity|]. split; [intros []; reflexivity|].
  repeat split; reflexivity.
Defined.

(** ** Rows *)

(** X15. A completed append drops the same number of oldest entries from
    each of the eight arrays of an aligned history and adds one entry to
    each: position [i] of every array still belongs to one and the same
    tick. *)
Theorem append_keeps_rows_in_step (r : response) (now : string) (w w' : world)
        (data s risk dist : value) :
  aligned w ->
  ingest r now w = (Normal (data, s, risk, dist), w') ->
  exists k,
    labels w' = drop k (labels w ++ [Str now])%list
    /\ (forall c, exists n,
           channel_hist c (sensorsHist w')
           = drop k (channel_hist c (sensorsHist w) ++ [Number n])%list)
    /\ (exists n, riskHist w' = drop k (riskHist w ++ [Number n])%list).
Proof.
  intros (_ & Hch & Hrisk) H.
  apply ingest_Normal in H as (_ & _ & (rv & n & _ & _ & ->) & _ & H).
  apply append_history_Normal in H as (Hl & Hc & Hr & _).
  cbn [labels sensorsHist riskHist set_requests] in Hl, Hc, Hr.
  exists (Z.to_nat (Z.of_nat (length (labels w) + 1) - HISTORY_MAX)).
  split; [rewrite Hl; apply pushLimited_drop|]. split.
  - intros c. destruct (Hc c) as (raw & m & _ & _ & ->).
    exists m. rewrite pushLimited_drop, Hch. reflexivity.
  - exists n. rewrite Hr, pushLimited_drop, Hrisk. reflexivity.
Qed.

Lemma append_keeps_rows_in_step_witness :
  exists k,
    labels (snd (ingest (Json (Object [])) "10:00:00" (initial ∅)))
    = drop k (labels (initial ∅) ++ [Str "10:00:00"])%list
    /\ (forall c, exists n,
           channel_hist c (sensorsHist (snd (ingest (Json (Object [])) "10:00:00" (initial ∅))))
           = drop k (channel_hist c (sensorsHist (initial ∅)) ++ [Number n])%list)
    /\ (exists n, riskHist (snd (ingest (Json (Object [])) "10:00:00" (initial ∅)))
                  = drop k (riskHist (initial ∅) ++ [Number n])%list).
Proof.
  apply (append_keeps_rows_in_step (Json (Object [])) "10:00:00" (initial ∅) _
           (Object []) (Object []) zero Undefined).
  - split; [cbn; lia|]. split; [intros []; reflexivity | reflexivity].
  - vm_compute. reflexivity.
Defined.

(** X16. A conversion that throws in the middle of the appends leaves a
    partial row behind: when the pressure field cannot be converted (an
    object carrying its own [toString]) while the temperature can, the
    tick has pushed the label and the temperature and nothing else, logs
    the failure and leaves the page alone; an aligned history below
    capacity is no longer aligned afterwards. *)
Theorem failed_conversion_leaves_partial_row (data : value) (now : string) (w : world)
        (t : number) (e : error) :
  is_nullish data = false ->
  (exists n, ToNumber (coalesce (field data "risk") zero) = Normal n) ->
  ToNumber (coalesce (field (or_else (field data "sensors") (Object [])) "temperature_c")
                     zero) = Normal t ->
  ToNumber (coalesce (field (or_else (field data "sensors") (Object [])) "pressure_bar")
                     zero) = Throw e ->
  let w' := after_tick (Json data) now w in
  labels w' = pushLimited (labels w) (Str now) HISTORY_MAX
  /\ temperature_c (sensorsHist w')
     = pushLimited (temperature_c (sensorsHist w)) (Number t) HISTORY_MAX
  /\ (forall c, c <> Temperature ->
                channel_hist c (sensorsHist w') = channel_hist c (sensorsHist w))
  /\ riskHist w' = riskHist w
  /\ document w' = document w
  /\ console w' = (console w ++ [("poll failed", e)])%list
  /\ (aligned w -> (length (labels w) < 30)%nat -> ~ aligned w').
Proof.
  intros Hd (n & Hn) Ht Hp. cbv zeta.
  set (s := or_else (field data "sensors") (Object [])) in *.
  assert (Hs : is_nullish s = false) by (apply or_else_truthy; reflexivity).
  assert (Hrun : after_tick (Json data) now w
                 = set_console (console w ++ [("poll failed", e)])%list
                     (set_sensorsHist
                        (set_channel Temperature
                           (pushLimited (temperature_c (sensorsHist w)) (Number t)
                                        HISTORY_MAX) (sensorsHist w))
                        (set_labels (pushLimited (labels w) (Str now) HISTORY_MAX)
                           (set_requests (requests w ++ [("GET", "/sensor_data")])%list w)))).
  { unfold after_tick, tick, tick_body, ingest, fetch_json, request, append_history,
      push_label, push_channel, push_risk, Number_or_0, console_error.
    unfold try_catch, bind, modify, ret, lift, throw.
    unfold zero in *.
    cbv beta iota.
    rewrite !(get_field data _ Hd). fold s. cbv beta iota. rewrite Hn.
    cbn [cbind channel_key]. cbv beta iota.
    rewrite !(get_field s _ Hs). cbv beta iota. rewrite Ht.
    cbn [cbind]. cbv beta iota. rewrite Hp. reflexivity. }
  rewrite Hrun. cbn [labels sensorsHist riskHist document console set_console
                       set_sensorsHist set_labels set_requests set_channel temperature_c].
  repeat (split; [reflexivity|]).
  split; [intros []; [congruence | reflexivity ..]|].
  split; [reflexivity|]. split; [reflexivity|]. split; [reflexivity|].
  intros (_ & Hch & _) Hlt (_ & Hch' & _).
  specialize (Hch Pressure). specialize (Hch' Pressure).
  cbn [labels sensorsHist set_console set_sensorsHist set_labels set_requests
         channel_hist set_channel pressure_bar] in Hch, Hch'.
  rewrite pushLimited_history_length in Hch'. lia.
Qed.

Lemma failed_conversion_leaves_partial_row_witness :
  labels (after_tick
            (Json (Object [("sensors",
                            Object [("temperature_c", Number (of_Z 80));
                                    ("pressure_bar", Object [("toString", Null)])])]))
            "10:00:00" (initial ∅))
  = pushLimited (labels (initial ∅)) (Str "10:00:00") HISTORY_MAX.
Proof.
  refine (proj1 (failed_conversion_leaves_partial_row
                   (Object [("sensors",
                             Object [("temperature_c", Number (of_Z 80));
                                     ("pressure_bar", Object [("toString", Null)])])])
                   "10:00:00" (initial ∅) (of_Z 80) TypeError _ _ _ _)).
  - reflexivity.
  - exists (S754_zero false). reflexivity.
  - reflexivity.
  - reflexivity.
Defined.

(** ** Mounting the cards *)









(** ** Bodies without the expected fields *)

(** X18. A parsed body that is not [null] but has no usable [sensors] and
    no [risk] (an error document, a string, a number) is taken for a frame
    of zeros: the appends complete, the newest label is the tick's time and
    the newest entry of each sensor array and of the risk array is 0. *)
Theorem missing_fields_append_zeros (data : value) (now : string) (w : world) :
  is_nullish data = false ->
  ToBoolean (field data "sensors") = false ->
  is_nullish (field data "risk") = true ->
  succeeded (fst (ingest (Json data) now w)) = true
  /\ last (labels (after_tick (Json data) now w)) = Some (Str now)
  /\ (forall c, last (channel_hist c (sensorsHist (after_tick (Json data) now w)))
                = Some zero)
  /\ last (riskHist (after_tick (Json data) now w)) = Some zero.
Proof.
  intros Hd Hs Hr.
  assert (Hrun : exists w1,
             ingest (Json data) now w
             = (Normal (data, Object [], zero, field data "distance_m"), w1)
             /\ labels w1 = pushLimited (labels w) (Str now) HISTORY_MAX
             /\ (forall c, channel_hist c (sensorsHist w1)
                           = pushLimited (channel_hist c (sensorsHist w)) zero HISTORY_MAX)
             /\ riskHist w1 = pushLimited (riskHist w) zero HISTORY_MAX).
  { unfold ingest, fetch_json, request, append_history, push_label, push_channel,
      push_risk, Number_or_0.
    unfold bind, modify, ret, lift, throw.
    cbv beta iota.
    rewrite !(get_field data _ Hd). cbv beta iota.
    assert (Es : or_else (field data "sensors") (Object []) = Object [])
      by (unfold or_else; rewrite Hs; reflexivity).
    assert (Er : coalesce (field data "risk") (Number (S754_zero false)) = zero)
      by (unfold coalesce; rewrite Hr; reflexivity).
    rewrite !Es, Er.
    eexists. split; [reflexivity|].
    split; [reflexivity|]. split; [|reflexivity].
    intros []; reflexivity. }
  destruct Hrun as (w1 & Hrun & Hl & Hc & Hk).
  pose proof (after_tick_history (Json data) now w) as (Al & As & Ar).
  rewrite Hrun in Al, As, Ar. cbn [snd] in Al, As, Ar.
  rewrite Hrun, Al, As, Ar, Hl, Hk.
  split; [reflexivity|].
  split; [apply pushLimited_last|].
  split; [|apply pushLimited_last].
  intros c. rewrite Hc. apply pushLimited_last.
Qed.

Lemma missing_fields_append_zeros_witness :
  last (riskHist (after_tick (Json (Object [("error", Str "boom")])) "10:00:00" (initial ∅)))
  = Some zero.
Proof.
  refine (proj2 (proj2 (proj2 (missing_fields_append_zeros
                                 (Object [("error", Str "boom")]) "10:00:00" (initial ∅)
                                 _ _ _)))); reflexivity.
Defined.
